(** * News API agent: the news query wrapper, the insight aggregator,
      the conversation cache and the HTTP routes

    A shallow embedding of [services/MyFunctions.ts] (class [NewsService], and
    its query wrappers as they were first written), [services/ChatService.ts]
    (class [ChatService]) and the Express routes of [index.ts], followed by
    the properties of these functions.

    The code is TypeScript that runs as JavaScript: the payload of an
    upstream answer and the query parameters of a request are dynamically
    typed, so they are embedded as values of a small JavaScript value type
    ([JS.value]).  Exceptions, raised inside a [try] block or in a route
    handler that has none, the outbound HTTP requests and the lines written
    by [console.error] are explicit: the asynchronous methods run in the
    monad [M], which answers the outbound requests from a [network] oracle
    and records every request and log line in a trace. *)

From Stdlib Require Import ZArith QArith Qminmax Qround Lqa Lia List Bool Sorted.
From stdpp Require Import base strings list gmap pretty.
From Stdlib Require Import String Ascii.

Local Open Scope string_scope.
Local Open Scope list_scope.

(** ** JavaScript values *)

Set Warnings "-register-all".

Module JS.

(** A JavaScript number: an IEEE double is [NaN], an infinity or a rational
    (both zeros are the rational 0).  Comparison, [Math.min] and [Math.max]
    are exact on doubles; the difference of two doubles is the exact
    difference rounded to a double, by the rounding of the host. *)
Inductive number : Type :=
| NaN
| NegInfinity
| Finite (q : Q)
| Infinity.

Definition num (z : Z) : number := Finite (inject_Z z).

(** [a <= b] on numbers; false as soon as one side is [NaN]. *)
Definition num_leb (a b : number) : bool :=
  match a, b with
  | NaN, _ | _, NaN => false
  | NegInfinity, _ => true
  | _, Infinity => true
  | Finite x, Finite y => Qle_bool x y
  | _, _ => false
  end.

(** [Math.min(a, b)] and [Math.max(a, b)] on two numbers. *)
Definition Math_min (a b : number) : number :=
  match a, b with
  | NaN, _ | _, NaN => NaN
  | _, _ => if num_leb a b then a else b
  end.

Definition Math_max (a b : number) : number :=
  match a, b with
  | NaN, _ | _, NaN => NaN
  | _, _ => if num_leb a b then b else a
  end.

(** [a - b] on two numbers, [round] being the rounding of a rational to the
    nearest double (an infinity past the largest one). *)
Definition num_sub (round : Q -> number) (a b : number) : number :=
  match a, b with
  | NaN, _ | _, NaN => NaN
  | Finite x, Finite y => round (x - y)%Q
  | Infinity, Infinity | NegInfinity, NegInfinity => NaN
  | Infinity, _ | _, NegInfinity => Infinity
  | NegInfinity, _ | _, Infinity => NegInfinity
  end.

(** A value as [JSON.parse] or the query-string parser builds it, with
    [undefined] for what is absent.  An object is the list of its own
    properties; [get_prop] reads the first entry of a name. *)
Inductive value : Type :=
| VUndef
| VNull
| VBool (b : bool)
| VNum (n : number)
| VStr (s : string)
| VArr (items : list value)
| VObj (props : list (string * value)).

(** ToBoolean: [undefined], [null], [false], [0], [NaN] and the empty string
    are falsy, everything else is truthy. *)
Definition truthy_num (n : number) : bool :=
  match n with
  | NaN => false
  | Finite q => negb (Qeq_bool q 0)
  | NegInfinity | Infinity => true
  end.

Definition truthy (v : value) : bool :=
  match v with
  | VUndef | VNull => false
  | VBool b => b
  | VNum n => truthy_num n
  | VStr s => negb (String.eqb s "")
  | VArr _ | VObj _ => true
  end.

(** [a || b] and [a && b] on values ([b] is pure wherever the source uses
    them, so it is passed evaluated). *)
Definition or_else (a b : value) : value := if truthy a then a else b.
Definition and_then (a b : value) : value := if truthy a then b else a.

(** [n || d] where [n] is an optional number argument. *)
Definition num_or (n : option number) (d : number) : number :=
  match n with
  | Some x => if truthy_num x then x else d
  | None => d
  end.

Definition is_nullish (v : value) : bool :=
  match v with VUndef | VNull => true | _ => false end.

Definition is_string (v : value) : bool :=
  match v with VStr _ => true | _ => false end.

Fixpoint assoc (k : string) (props : list (string * value)) : value :=
  match props with
  | [] => VUndef
  | (k', v) :: rest => if String.eqb k k' then v else assoc k rest
  end.

(** Whether an object has an own property of this name. *)
Definition has_own (k : string) (props : list (string * value)) : bool :=
  existsb (fun kv => String.eqb k kv.1) props.

(** [v.k] for the property names the source reads ([articles],
    [totalResults], [title], [source], [name], [response], ...): none of
    them is defined on a primitive, on an array or on [Object.prototype],
    so only an object's own property answers.  [None] is the [TypeError] of
    reading a property of [undefined] or [null]. *)
Definition get_prop (v : value) (k : string) : option value :=
  match v with
  | VUndef | VNull => None
  | VObj props => Some (assoc k props)
  | _ => Some VUndef
  end.

(** [v?.k] *)
Definition get_prop_opt (v : value) (k : string) : value :=
  match v with
  | VObj props => assoc k props
  | _ => VUndef
  end.

(** The keys of a [Map] are compared by SameValueZero: primitives by value
    ([NaN] equal to itself), objects and arrays by identity.  Every object
    that [JSON.parse] builds is a fresh one, so two of them are never the
    same key. *)
Definition num_same (a b : number) : bool :=
  match a, b with
  | NaN, NaN | NegInfinity, NegInfinity | Infinity, Infinity => true
  | Finite x, Finite y => Qeq_bool x y
  | _, _ => false
  end.

Definition same_value_zero (a b : value) : bool :=
  match a, b with
  | VUndef, VUndef | VNull, VNull => true
  | VBool x, VBool y => Bool.eqb x y
  | VNum x, VNum y => num_same x y
  | VStr x, VStr y => String.eqb x y
  | _, _ => false
  end.

End JS.

(** ** Effects: exceptions, outbound requests, the error log *)

Module Eff.
Import JS.

(** An outbound [axios.get(url, { params })]. *)
Record request : Type := {
  req_url : string;
  req_params : list (string * value)
}.

(** What the network does with a request: no answer at all, or an HTTP
    answer with its status and parsed body. *)
Inductive outcome : Type :=
| NetworkError
| HttpResponse (status : nat) (data : value).

(** What a [try] block can raise: the rejection of [axios.get] (no answer, or
    a status outside 2xx, axios's default [validateStatus]), or a [TypeError]
    (a property of [undefined] or [null], a call of what is no function, the
    conversion to a number of an object that has no callable [toString]). *)
Inductive exn : Type :=
| AxiosError (o : outcome)
| TypeError.

Inductive event : Type :=
| HttpGet (r : request)
| ConsoleError (label : string) (e : exn).

(** The network answers the [n]-th outbound request of a run. *)
Definition network : Type := nat -> request -> outcome.

Definition requests (tr : list event) : list request :=
  omap (fun e => match e with HttpGet r => Some r | ConsoleError _ _ => None end) tr.

(** A computation reads the network, extends the trace and ends with a value
    or an exception. *)
Definition M (A : Type) : Type := network -> list event -> (exn + A) * list event.

Definition ret {A} (a : A) : M A := fun _ tr => (inr a, tr).

Definition throw {A} (e : exn) : M A := fun _ tr => (inl e, tr).

Definition bind {A B} (m : M A) (k : A -> M B) : M B :=
  fun net tr =>
    match m net tr with
    | (inr a, tr') => k a net tr'
    | (inl e, tr') => (inl e, tr')
    end.

(** [try { body } catch (error) { handler }] *)
Definition try_catch {A} (body : M A) (handler : exn -> M A) : M A :=
  fun net tr =>
    match body net tr with
    | (inr a, tr') => (inr a, tr')
    | (inl e, tr') => handler e net tr'
    end.

(** Lifting a pure step that may raise a [TypeError]. *)
Definition lift {A} (o : option A) : M A :=
  match o with Some a => ret a | None => throw TypeError end.

Definition console_error (label : string) (e : exn) : M unit :=
  fun _ tr => (inr tt, tr ++ [ConsoleError label e]).

Definition ok_status (st : nat) : bool := (200 <=? st)%nat && (st <? 300)%nat.

(** The request is put on the wire; the promise it returns settles with the
    network's outcome. *)
Definition send (r : request) : M outcome :=
  fun net tr => (inr (net (List.length (requests tr)) r), tr ++ [HttpGet r]).

(** How a promise of axios settles: fulfilled with the response's [data], or
    rejected with the error. *)
Definition settle (o : outcome) : exn + value :=
  match o with
  | HttpResponse st data => if ok_status st then inr data else inl (AxiosError o)
  | NetworkError => inl (AxiosError o)
  end.

(** [await] of such a promise. *)
Definition await (o : outcome) : M value :=
  match settle o with
  | inr data => ret data
  | inl e => throw e
  end.

Definition axios_get (r : request) : M value := bind (send r) await.

(** A run from the empty trace. *)
Definition run {A} (m : M A) (net : network) : (exn + A) * list event := m net [].

#[export] Instance M_ret : MRet M := @ret.
#[export] Instance M_bind : MBind M := fun A B k m => bind m k.

End Eff.


(** ** The host environment

    What the JavaScript runtime supplies and the source only calls: the
    number that a string denotes and the string that a number prints as
    (behind [Number(x)] and the operands of [-]), the rounding of a rational
    to the nearest double (behind [-]), which leaves an integer of magnitude
    at most 2^53 as it is, the clock with its calendar arithmetic behind
    [getDateDaysAgo] ([new Date()], [setDate(getDate() - days)],
    [toISOString()]), as a function of [days] at the time of the call, and
    the order in which two rejected requests of a [Promise.all] are
    rejected. *)

Class Host : Type := {
  StringToNumber : string -> JS.number;
  NumberToString : JS.number -> string;
  round_double : Q -> JS.number;
  round_double_integer :
    forall (q : Q) (z : Z),
      (q == inject_Z z)%Q -> (Z.abs z <= 2 ^ 53)%Z -> round_double q = JS.num z;
  getDateDaysAgo : JS.number -> string;
  rejects_first : Eff.request -> Eff.request -> bool
}.

Module Coerce.
Import JS.

(** ToString.  The values are those of [JSON.parse] and of the query-string
    parser, so no property of an object is a function: an object with an own
    [toString] has no callable one ([valueOf], own or inherited, gives no
    primitive), and its conversion raises a [TypeError] ([None]); any other
    object prints through [Object.prototype.toString].  An array prints
    through [Array.prototype.join]: its elements joined by commas,
    [undefined] and [null] as the empty string. *)
Fixpoint ToString `{Host} (v : value) : option string :=
  match v with
  | VUndef => Some "undefined"
  | VNull => Some "null"
  | VBool b => Some (if b then "true" else "false")
  | VNum n => Some (NumberToString n)
  | VStr s => Some s
  | VObj props => if has_own "toString" props then None else Some "[object Object]"
  | VArr items =>
      (fix join (l : list value) : option string :=
         match l with
         | [] => Some ""
         | x :: rest =>
             match (if is_nullish x then Some "" else ToString x) with
             | None => None
             | Some sx =>
                 match rest with
                 | [] => Some sx
                 | _ :: _ =>
                     match join rest with
                     | None => None
                     | Some sr => Some (sx ++ "," ++ sr)%string
                     end
                 end
             end
         end) items
  end.

(** ToNumber, behind [Number(x)] and the operands of [-]: an object or an
    array is converted to a primitive first ([valueOf] gives none, so
    [toString] decides), which raises a [TypeError] ([None]) where ToString
    does. *)
Definition ToNumber `{Host} (v : value) : option number :=
  match v with
  | VUndef => Some NaN
  | VNull => Some (num 0)
  | VBool b => Some (if b then num 1 else num 0)
  | VNum n => Some n
  | VStr s => Some (StringToNumber s)
  | VArr _ | VObj _ =>
      match ToString v with
      | Some s => Some (StringToNumber s)
      | None => None
      end
  end.

(** [a - b] on values: the left operand is converted first; [None] is the
    [TypeError] of a conversion. *)
Definition minus `{Host} (a b : value) : option number :=
  match ToNumber a with
  | None => None
  | Some x =>
      match ToNumber b with
      | None => None
      | Some y => Some (num_sub round_double x y)
      end
  end.

End Coerce.

(** ** services/MyFunctions.ts: class NewsService *)

Module NewsService.
Import JS Eff.

Definition NEWS_API_BASE_URL : string := "https://newsapi.org/v2".

Record NormalizedArticle : Type := {
  title : value;
  description : value;
  url : value;
  source : value;
  publishedAt : value;
  author : value;
  content : value
}.

Inductive Priority : Type := low | medium | high.

Record Brief : Type := {
  summary : string;
  priority : Priority;
  timestamp : string
}.

(** The callback of [articles.map]: one record of the upstream answer to the
    uniform shape.  Reading a property of an [undefined] or [null] element
    raises. *)
Definition normalizeArticle (article : value) : option NormalizedArticle :=
  a_title ← get_prop article "title";
  a_description ← get_prop article "description";
  a_url ← get_prop article "url";
  a_source ← get_prop article "source";
  a_publishedAt ← get_prop article "publishedAt";
  a_author ← get_prop article "author";
  a_content ← get_prop article "content";
  Some {|
    title := or_else a_title (VStr "");
    description := or_else a_description (VStr "");
    url := or_else a_url (VStr "");
    source := or_else (get_prop_opt a_source "name") (VStr "unknown");
    publishedAt := or_else a_publishedAt (VStr "");
    author := or_else a_author (VStr "Unknown");
    content := or_else (or_else a_content a_description) (VStr "")
  |}.

(** [articles.map(...)]: what is no array has no [map] to call. *)
Definition normalizeArticles (articles : value) : option (list NormalizedArticle) :=
  match articles with
  | VArr items => mapM normalizeArticle items
  | _ => None
  end.

(** *** extractKeywords

    A string is a sequence of code units; the embedding covers the code units
    below 256 (Latin-1), one [ascii] each. *)

Definition code (c : ascii) : N := N_of_ascii c.

Definition in_range (lo hi : N) (c : ascii) : bool :=
  (lo <=? code c)%N && (code c <=? hi)%N.

(** [toLowerCase] on one code unit: A-Z, and the capital letters of the
    Latin-1 supplement (U+00C0-U+00DE without the multiplication sign). *)
Definition lower_char (c : ascii) : ascii :=
  if in_range 65 90 c || (in_range 192 222 c && negb (code c =? 215)%N)
  then ascii_of_N (code c + 32)
  else c.

Fixpoint map_chars (f : ascii -> ascii) (s : string) : string :=
  match s with
  | EmptyString => EmptyString
  | String c r => String (f c) (map_chars f r)
  end.

Definition toLowerCase (s : string) : string := map_chars lower_char s.

(** The class [\s]: tab, line feed, vertical tab, form feed, carriage return,
    space and the no-break space. *)
Definition is_space (c : ascii) : bool :=
  in_range 9 13 c || (code c =? 32)%N || (code c =? 160)%N.

(** The class [a-z0-9]. *)
Definition is_alnum (c : ascii) : bool :=
  in_range 97 122 c || in_range 48 57 c.

(** [.replace(/[^a-z0-9\s]/g, ' ')] *)
Definition strip_char (c : ascii) : ascii :=
  if is_alnum c || is_space c then c else " "%char.

Definition strip_punctuation (s : string) : string := map_chars strip_char s.

Definition starts_with_space (s : string) : bool :=
  match s with
  | String c _ => is_space c
  | EmptyString => false
  end.

(** [.split(/\s+/)]: the pieces between the maximal runs of white space, an
    empty piece before a leading run and after a trailing one. *)
Fixpoint split_spaces (s : string) : list string :=
  match s with
  | EmptyString => [EmptyString]
  | String c r =>
      if is_space c then
        if starts_with_space r then split_spaces r else EmptyString :: split_spaces r
      else
        match split_spaces r with
        | piece :: pieces => String c piece :: pieces
        | [] => [String c EmptyString]
        end
  end.

Definition stopWords : gset string :=
  list_to_set [
    "the"; "a"; "an"; "and"; "or"; "for"; "with"; "from"; "this"; "that"; "into"; "about";
    "after"; "before"; "over"; "under"; "their"; "they"; "them"; "you"; "your"; "will";
    "said"; "says"; "new"; "more"; "has"; "have"; "was"; "were"; "are"; "is"; "at"; "to";
    "in"; "on"; "of"; "as"; "by"; "be"; "it"; "its"
  ].

Definition keep_word (w : string) : bool :=
  (3 <? String.length w)%nat && negb (bool_decide (w ∈ stopWords)).

Definition keywords_of (text : string) : list string :=
  List.filter keep_word (split_spaces (strip_punctuation (toLowerCase text))).

(** [extractKeywords(text)]: only a string has the method [toLowerCase]. *)
Definition extractKeywords (text : value) : option (list string) :=
  match text with
  | VStr s => Some (keywords_of s)
  | _ => None
  end.

(** *** The three query wrappers *)

Record SearchResult : Type := {
  articles : list NormalizedArticle;
  totalResults : value
}.

Definition empty_result : SearchResult :=
  {| articles := []; totalResults := VNum (num 0) |}.

(** The tail shared by the three wrappers: [response.data.articles] through
    [normalizeArticles], then [response.data.totalResults]; [None] when one
    of these steps raises its [TypeError]. *)
Definition read_result (data : value) : option SearchResult :=
  raw ← get_prop data "articles";
  normalized ← normalizeArticles raw;
  total ← get_prop data "totalResults";
  Some {| articles := normalized; totalResults := total |}.

Record HeadlinesArgs : Type := {
  th_country : value;
  th_category : value;
  th_pageSize : option number
}.

Definition getTopHeadlines (apiKey : string) (args : HeadlinesArgs) : M SearchResult :=
  try_catch
    (let params := [
       ("apiKey", VStr apiKey);
       ("country", or_else (th_country args) (VStr "us"));
       ("pageSize", VNum (Math_min (num_or (th_pageSize args) (num 20)) (num 100)))
     ] in
     let params :=
       if truthy (th_category args) then params ++ [("category", th_category args)]
       else params in
     data ← axios_get {| req_url := NEWS_API_BASE_URL ++ "/top-headlines";
                         req_params := params |};
     lift (read_result data))
    (fun error =>
       console_error "error fetching top headlines:" error;;
       mret empty_result).

Record SearchArgs : Type := {
  sn_query : value;
  sn_sortBy : value;
  sn_language : value;
  sn_pageSize : option number
}.

Definition searchNews (apiKey : string) (args : SearchArgs) : M SearchResult :=
  try_catch
    (if negb (truthy (sn_query args)) then mret empty_result
     else
       let params := [
         ("apiKey", VStr apiKey);
         ("q", sn_query args);
         ("sortBy", or_else (sn_sortBy args) (VStr "relevancy"));
         ("language", or_else (sn_language args) (VStr "en"));
         ("pageSize", VNum (Math_min (num_or (sn_pageSize args) (num 20)) (num 100)))
       ] in
       data ← axios_get {| req_url := NEWS_API_BASE_URL ++ "/everything";
                           req_params := params |};
       lift (read_result data))
    (fun error =>
       console_error "error searching news:" error;;
       mret empty_result).

Record CompanyArgs : Type := {
  cn_companyName : value;
  cn_dateFrom : value;
  cn_dateTo : value;
  cn_pageSize : option number
}.

Definition getCompanyNews (apiKey : string) (args : CompanyArgs) : M SearchResult :=
  try_catch
    (if negb (truthy (cn_companyName args)) then mret empty_result
     else
       let params := [
         ("apiKey", VStr apiKey);
         ("q", cn_companyName args);
         ("sortBy", VStr "publishedAt");
         ("language", VStr "en");
         ("pageSize", VNum (Math_min (num_or (cn_pageSize args) (num 10)) (num 100)))
       ] in
       let params :=
         if truthy (cn_dateFrom args) then params ++ [("from", cn_dateFrom args)]
         else params in
       let params :=
         if truthy (cn_dateTo args) then params ++ [("to", cn_dateTo args)]
         else params in
       data ← axios_get {| req_url := NEWS_API_BASE_URL ++ "/everything";
                           req_params := params |};
       lift (read_result data))
    (fun error =>
       console_error "error fetching company news:" error;;
       mret empty_result).

(** *** sendNewsBrief

    [recentBriefs] is the static list of the class; the call takes it and
    gives back the updated one.  [now] is [new Date().toISOString()]. *)

Record BriefArgs : Type := {
  sb_summary : string;
  sb_priority : option Priority
}.

Record BriefReceipt : Type := {
  success : bool;
  receipt_timestamp : string
}.

Definition sendNewsBrief (args : BriefArgs) (now : string) (recentBriefs : list Brief)
  : BriefReceipt * list Brief :=
  let briefs :=
    {| summary := sb_summary args;
       priority := default medium (sb_priority args);
       timestamp := now |} :: recentBriefs in
  let briefs := if (10 <? List.length briefs)%nat then removelast briefs else briefs in
  ({| success := true; receipt_timestamp := now |}, briefs).

(** *** The insight aggregator *)

Record Headline : Type := {
  h_title : value;
  h_source : value;
  h_publishedAt : value;
  h_url : value
}.

(** [(a) => ({ title: a.title, source: a.source, publishedAt: a.publishedAt, url: a.url })] *)
Definition headline (a : NormalizedArticle) : Headline :=
  {| h_title := title a; h_source := source a;
     h_publishedAt := publishedAt a; h_url := url a |}.

(** A [Map<K, number>] of counts, in insertion order.
    [m.set(k, (m.get(k) || 0) + 1)]: a key already there keeps its place. *)
Fixpoint bump {K} (same : K -> K -> bool) (k : K) (m : list (K * nat)) : list (K * nat) :=
  match m with
  | [] => [(k, 1%nat)]
  | (k', n) :: rest =>
      if same k' k then (k', S n) :: rest else (k', n) :: bump same k rest
  end.

(** The loop over the articles: the source tally and the keyword tally of
    the titles; [extractKeywords] raises on a title that is no string. *)
Fixpoint tally (arts : list NormalizedArticle)
    (sourceCount : list (value * nat)) (keywordCount : list (string * nat))
  : option (list (value * nat) * list (string * nat)) :=
  match arts with
  | [] => Some (sourceCount, keywordCount)
  | article :: rest =>
      let sourceCount := bump same_value_zero (source article) sourceCount in
      words ← extractKeywords (title article);
      tally rest sourceCount
        (fold_left (fun m w => bump String.eqb w m) words keywordCount)
  end.

(** [.sort((a, b) => b[1] - a[1])]: descending counts, entries of equal count
    in their former order (the sort is stable). *)
Fixpoint insert_desc {K} (x : K * nat) (sorted : list (K * nat)) : list (K * nat) :=
  match sorted with
  | [] => [x]
  | y :: ys => if (snd x <? snd y)%nat then y :: insert_desc x ys else x :: y :: ys
  end.

Definition sort_desc {K} (entries : list (K * nat)) : list (K * nat) :=
  foldr insert_desc [] entries.

Record PulseArgs : Type := {
  ip_industry : string;
  ip_days : option number;
  ip_language : value
}.

Record IndustryPulse : Type := {
  pulse_industry : string;
  pulse_windowDays : number;
  pulse_totalResults : value;
  pulse_topSources : list (value * nat);
  pulse_topKeywords : list (string * nat);
  pulse_notableHeadlines : list Headline
}.

Definition getIndustryPulse `{Host} (apiKey : string) (args : PulseArgs) : M IndustryPulse :=
  try_catch
    (let windowDays := Math_min (Math_max (num_or (ip_days args) (num 7)) (num 1)) (num 14) in
     data ← axios_get {|
       req_url := NEWS_API_BASE_URL ++ "/everything";
       req_params := [
         ("apiKey", VStr apiKey);
         ("q", VStr (ip_industry args));
         ("from", VStr (getDateDaysAgo windowDays));
         ("sortBy", VStr "publishedAt");
         ("language", or_else (ip_language args) (VStr "en"));
         ("pageSize", VNum (num 15))
       ] |};
     raw ← lift (get_prop data "articles");
     arts ← lift (normalizeArticles raw);
     counts ← lift (tally arts [] []);
     let topSources := take 3 (sort_desc counts.1) in
     let topKeywords := take 5 (sort_desc counts.2) in
     let notableHeadlines := List.map headline (take 5 arts) in
     total ← lift (get_prop data "totalResults");
     mret {| pulse_industry := ip_industry args;
             pulse_windowDays := windowDays;
             pulse_totalResults := total;
             pulse_topSources := topSources;
             pulse_topKeywords := topKeywords;
             pulse_notableHeadlines := notableHeadlines |})
    (fun error =>
       console_error "error building industry pulse:" error;;
       mret {| pulse_industry := ip_industry args;
               pulse_windowDays := num_or (ip_days args) (num 7);
               pulse_totalResults := VNum (num 0);
               pulse_topSources := [];
               pulse_topKeywords := [];
               pulse_notableHeadlines := [] |}).

Record CompareArgs : Type := {
  cc_companyA : string;
  cc_companyB : string;
  cc_days : option number
}.

Record CompanySide : Type := {
  side_name : string;
  side_totalResults : value;
  side_recentHeadlines : list Headline
}.

Record Coverage : Type := {
  cov_windowDays : number;
  cov_companyA : CompanySide;
  cov_companyB : CompanySide;
  cov_deltaCoverage : number
}.

(** [await Promise.all([a, b])] of the promises of two requests: the two
    payloads, or the rejection of the pair, which is the rejection that comes
    first. *)
Definition await_all `{Host} (reqA reqB : request) (a b : outcome) : M (value * value) :=
  match settle a, settle b with
  | inr aData, inr bData => ret (aData, bData)
  | inl e, inr _ | inr _, inl e => throw e
  | inl eA, inl eB => throw (if rejects_first reqA reqB then eA else eB)
  end.

(** Both requests are on the wire before either is awaited.  The object
    literal of the answer is evaluated field by field, [deltaCoverage] last:
    a subtraction that raises leaves through the [catch] as well. *)
Definition compareCompanyCoverage `{Host} (apiKey : string) (args : CompareArgs) : M Coverage :=
  try_catch
    (let windowDays := Math_min (Math_max (num_or (cc_days args) (num 7)) (num 1)) (num 14) in
     let from := getDateDaysAgo windowDays in
     let query (company : string) := {|
       req_url := NEWS_API_BASE_URL ++ "/everything";
       req_params := [
         ("apiKey", VStr apiKey);
         ("q", VStr company);
         ("from", VStr from);
         ("sortBy", VStr "publishedAt");
         ("language", VStr "en");
         ("pageSize", VNum (num 10))
       ] |} in
     aPromise ← send (query (cc_companyA args));
     bPromise ← send (query (cc_companyB args));
     '(aData, bData) ← await_all (query (cc_companyA args)) (query (cc_companyB args))
                                  aPromise bPromise;
     aRaw ← lift (get_prop aData "articles");
     aArticles ← lift (normalizeArticles aRaw);
     bRaw ← lift (get_prop bData "articles");
     bArticles ← lift (normalizeArticles bRaw);
     aTotal ← lift (get_prop aData "totalResults");
     bTotal ← lift (get_prop bData "totalResults");
     delta ← lift (Coerce.minus aTotal bTotal);
     mret {| cov_windowDays := windowDays;
             cov_companyA := {| side_name := cc_companyA args;
                                side_totalResults := aTotal;
                                side_recentHeadlines := List.map headline (take 3 aArticles) |};
             cov_companyB := {| side_name := cc_companyB args;
                                side_totalResults := bTotal;
                                side_recentHeadlines := List.map headline (take 3 bArticles) |};
             cov_deltaCoverage := delta |})
    (fun error =>
       console_error "error comparing company coverage:" error;;
       mret {| cov_windowDays := num_or (cc_days args) (num 7);
               cov_companyA := {| side_name := cc_companyA args;
                                  side_totalResults := VNum (num 0);
                                  side_recentHeadlines := [] |};
               cov_companyB := {| side_name := cc_companyB args;
                                  side_totalResults := VNum (num 0);
                                  side_recentHeadlines := [] |};
               cov_deltaCoverage := num 0 |}).

Record MoversArgs : Type := {
  mm_query : value;
  mm_days : option number
}.

Record MarketEvent : Type := {
  ev_title : value;
  ev_source : value;
  ev_publishedAt : value;
  ev_url : value;
  ev_trigger : string
}.

Record MarketMovers : Type := {
  mov_windowDays : number;
  mov_totalScanned : value;
  mov_events : list MarketEvent
}.

Definition getMarketMovingEvents `{Host} (apiKey : string) (args : MoversArgs) : M MarketMovers :=
  try_catch
    (let windowDays := Math_min (Math_max (num_or (mm_days args) (num 3)) (num 1)) (num 7) in
     let q := or_else (mm_query args) (VStr "earnings OR merger OR layoffs") in
     data ← axios_get {|
       req_url := NEWS_API_BASE_URL ++ "/everything";
       req_params := [
         ("apiKey", VStr apiKey);
         ("q", q);
         ("from", VStr (getDateDaysAgo windowDays));
         ("sortBy", VStr "publishedAt");
         ("language", VStr "en");
         ("pageSize", VNum (num 15))
       ] |};
     raw ← lift (get_prop data "articles");
     arts ← lift (normalizeArticles raw);
     let events :=
       List.map (fun a => {| ev_title := title a; ev_source := source a;
                             ev_publishedAt := publishedAt a; ev_url := url a;
                             ev_trigger := "event" |}) (take 6 arts) in
     total ← lift (get_prop data "totalResults");
     mret {| mov_windowDays := windowDays; mov_totalScanned := total; mov_events := events |})
    (fun error =>
       console_error "error fetching market moving events:" error;;
       mret {| mov_windowDays := num_or (mm_days args) (num 3);
               mov_totalScanned := VNum (num 0);
               mov_events := [] |}).

End NewsService.

(** ** services/ChatService.ts: class ChatService *)

Module ChatService.
Import JS Eff.

Inductive Role : Type := user | assistant.

Record Message : Type := {
  role : Role;
  content : value;
  timestamp : string
}.

Record ConversationContext : Type := {
  userId : string;
  messages : list Message
}.

(** The private [Map<string, ConversationContext>] of the service. *)
Definition getOrCreateConversation (uid : string) (conversations : gmap string ConversationContext)
  : ConversationContext * gmap string ConversationContext :=
  match conversations !! uid with
  | Some conversation => (conversation, conversations)
  | None =>
      let conversation := {| userId := uid; messages := [] |} in
      (conversation, <[uid := conversation]> conversations)
  end.

(** The reply read off the payload of the agent's answer. *)
Definition assistantResponse (response_data : value) : value :=
  let data := or_else response_data (VObj []) in
  if is_string (get_prop_opt data "response") then get_prop_opt data "response"
  else
    or_else
      (or_else
         (or_else (get_prop_opt data "message") (get_prop_opt data "text"))
         (and_then (get_prop_opt data "data")
            (or_else (get_prop_opt (get_prop_opt data "data") "response")
                     (get_prop_opt (get_prop_opt data "data") "message"))))
      (VStr "no response received from agent.").

Definition apology : string :=
  "sorry, i'm having trouble connecting to my brain right now. please try again later.".

(** [messages.slice(-20)] *)
Definition last20 (msgs : list Message) : list Message :=
  drop (List.length msgs - 20) msgs.

(** [processMessage(userId, userMessage)].  [upstream] is what the network
    does with the [axios.post] to the agent (a timeout is a [NetworkError]),
    [t0] and [t1] are the two readings of [new Date().toISOString()].  The
    conversation object is the one held by the map, so what is pushed to it is
    written back under [uid].  The call is taken as a whole: no other call of
    the service runs while the answer is awaited.  Besides the reply and the
    map, the lines written by [console.error] are given back. *)
Definition processMessage (upstream : outcome) (t0 t1 : string)
    (uid : string) (userMessage : string)
    (conversations : gmap string ConversationContext)
  : value * gmap string ConversationContext * list event :=
  let '(conversation, conversations) := getOrCreateConversation uid conversations in
  let pushed :=
    messages conversation ++ [{| role := user; content := VStr userMessage; timestamp := t0 |}] in
  match settle upstream with
  | inr response_data =>
      let reply := assistantResponse response_data in
      let pushed := pushed ++ [{| role := assistant; content := reply; timestamp := t1 |}] in
      let stored := if (20 <? List.length pushed)%nat then last20 pushed else pushed in
      (reply, <[uid := {| userId := userId conversation; messages := stored |}]> conversations, [])
  | inl error =>
      (VStr apology,
       <[uid := {| userId := userId conversation; messages := pushed |}]> conversations,
       [ConsoleError "daemo api error:" error])
  end.

Definition getConversationHistory (uid : string) (conversations : gmap string ConversationContext)
  : list Message * gmap string ConversationContext :=
  let '(conversation, conversations) := getOrCreateConversation uid conversations in
  (messages conversation, conversations).

Definition clearConversation (uid : string) (conversations : gmap string ConversationContext)
  : gmap string ConversationContext :=
  delete uid conversations.

(** The stored history of a user, as [getConversationHistory] reads it. *)
Definition history (uid : string) (conversations : gmap string ConversationContext)
  : list Message :=
  (getConversationHistory uid conversations).1.

(** One call of [processMessage] with what the environment supplies to it. *)
Record Call : Type := {
  call_upstream : outcome;
  call_t0 : string;
  call_t1 : string;
  call_userId : string;
  call_message : string
}.

Definition step (conversations : gmap string ConversationContext) (c : Call)
  : gmap string ConversationContext :=
  (processMessage (call_upstream c) (call_t0 c) (call_t1 c)
     (call_userId c) (call_message c) conversations).1.2.

(** A sequence of calls on a service, from first to last. *)
Definition run_calls (calls : list Call) (conversations : gmap string ConversationContext)
  : gmap string ConversationContext :=
  fold_left step calls conversations.

End ChatService.

(** ** index.ts: the Express routes over the news service *)

Module Server.
Import JS Eff NewsService.

(** What a handler sends: [res.json(x)] answers with status 200,
    [res.status(400).json({ error })] with status 400.  A handler has no
    [try] of its own: an exception raised in it ends the run, and the request
    is left without an answer. *)
Inductive Body : Type :=
| ErrorBody (error : string)
| SearchBody (results : SearchResult)
| PulseBody (data : IndustryPulse)
| CoverageBody (data : Coverage)
| MoversBody (data : MarketMovers).

Record Response : Type := {
  status : nat;
  body : Body
}.

Definition json (b : Body) : Response := {| status := 200; body := b |}.
Definition bad_request (msg : string) : Response := {| status := 400; body := ErrorBody msg |}.

(** [req.query]: the parsed query string; a parameter that is absent reads
    as [undefined]. *)
Definition param (query : gmap string value) (name : string) : value :=
  default VUndef (query !! name).

(** [days ? Number(days) : undefined]: [Some None] is [undefined], [None]
    the [TypeError] that [Number] raises on an object it cannot convert. *)
Definition days_arg `{Host} (days : value) : option (option number) :=
  if truthy days
  then match Coerce.ToNumber days with
       | Some n => Some (Some n)
       | None => None
       end
  else Some None.

(** [typeof x === 'string' ? x : undefined] *)
Definition string_or_undefined (x : value) : value :=
  if is_string x then x else VUndef.

(** A value that a [typeof x === 'string'] guard has let through, as the
    string it is. *)
Definition the_string (x : value) : string :=
  match x with VStr s => s | _ => "" end.

Definition get_headlines (apiKey : string) (query : gmap string value) : M Response :=
  results ← getTopHeadlines apiKey
    {| th_country := param query "country";
       th_category := param query "category";
       th_pageSize := None |};
  mret (json (SearchBody results)).

Definition get_search (apiKey : string) (query : gmap string value) : M Response :=
  results ← searchNews apiKey
    {| sn_query := param query "q";
       sn_sortBy := VUndef; sn_language := VUndef; sn_pageSize := None |};
  mret (json (SearchBody results)).

Definition get_company (apiKey : string) (query : gmap string value) : M Response :=
  results ← getCompanyNews apiKey
    {| cn_companyName := param query "name";
       cn_dateFrom := VUndef; cn_dateTo := VUndef; cn_pageSize := None |};
  mret (json (SearchBody results)).

Definition get_industry_pulse `{Host} (apiKey : string) (query : gmap string value) : M Response :=
  let industry := param query "industry" in
  if negb (truthy industry) || negb (is_string industry)
  then mret (bad_request "industry is required")
  else
    days ← lift (days_arg (param query "days"));
    data ← getIndustryPulse apiKey
      {| ip_industry := the_string industry;
         ip_days := days;
         ip_language := string_or_undefined (param query "language") |};
    mret (json (PulseBody data)).

Definition get_compare_companies `{Host} (apiKey : string) (query : gmap string value) : M Response :=
  let companyA := param query "companyA" in
  let companyB := param query "companyB" in
  if negb (truthy companyA) || negb (truthy companyB)
     || negb (is_string companyA) || negb (is_string companyB)
  then mret (bad_request "companyA and companyB are required")
  else
    days ← lift (days_arg (param query "days"));
    data ← compareCompanyCoverage apiKey
      {| cc_companyA := the_string companyA;
         cc_companyB := the_string companyB;
         cc_days := days |};
    mret (json (CoverageBody data)).

Definition get_market_movers `{Host} (apiKey : string) (query : gmap string value) : M Response :=
  days ← lift (days_arg (param query "days"));
  data ← getMarketMovingEvents apiKey
    {| mm_query := string_or_undefined (param query "query");
       mm_days := days |};
  mret (json (MoversBody data)).

(** The routes of the news service by path. *)
Inductive Route : Type :=
| ApiHeadlines
| ApiSearch
| ApiCompany
| ApiIndustryPulse
| ApiCompareCompanies
| ApiMarketMovers.

Definition handle `{Host} (apiKey : string) (route : Route) (query : gmap string value)
  : M Response :=
  match route with
  | ApiHeadlines => get_headlines apiKey query
  | ApiSearch => get_search apiKey query
  | ApiCompany => get_company apiKey query
  | ApiIndustryPulse => get_industry_pulse apiKey query
  | ApiCompareCompanies => get_compare_companies apiKey query
  | ApiMarketMovers => get_market_movers apiKey query
  end.

(** The query parameters that the specification calls required, per route. *)
Definition required (route : Route) : list string :=
  match route with
  | ApiSearch => ["q"]
  | ApiCompany => ["name"]
  | ApiIndustryPulse => ["industry"]
  | ApiCompareCompanies => ["companyA"; "companyB"]
  | ApiHeadlines | ApiMarketMovers => []
  end.

End Server.

(** ** Vocabulary of the properties *)

Module Vocabulary.
Import JS Eff NewsService.

(** A field typed [string | null] by the interface [NewsArticle], or left
    out of the record. *)
Definition optional_string (v : value) : bool :=
  match v with
  | VUndef | VNull | VStr _ => true
  | _ => false
  end.

(** An article record as the interface [NewsArticle] types it, fields
    possibly missing: [source] an object with a [name], the other fields read
    by the normalization strings or [null]. *)
Definition interface_article (article : value) : bool :=
  match article with
  | VObj _ =>
      optional_string (get_prop_opt article "title")
      && optional_string (get_prop_opt article "description")
      && optional_string (get_prop_opt article "url")
      && optional_string (get_prop_opt article "publishedAt")
      && optional_string (get_prop_opt article "author")
      && optional_string (get_prop_opt article "content")
      && match get_prop_opt article "source" with
         | VUndef | VNull => true
         | VObj _ as src => optional_string (get_prop_opt src "name")
         | _ => false
         end
  | _ => false
  end.

Definition all_strings (a : NormalizedArticle) : bool :=
  is_string (title a) && is_string (description a) && is_string (url a)
  && is_string (source a) && is_string (publishedAt a)
  && is_string (author a) && is_string (content a).

(** A payload whose [articles] can be mapped: an array without [null]
    elements, on a payload that is not [null] itself. *)
Definition mappable_payload (data : value) : bool :=
  match data with
  | VUndef | VNull => false
  | _ =>
      match get_prop_opt data "articles" with
      | VArr items => forallb (fun item => negb (is_nullish item)) items
      | _ => false
      end
  end.

(** The outbound call failed: no answer, a status outside 2xx, or a payload
    whose articles cannot be mapped. *)
Definition outcome_failed (o : outcome) : Prop :=
  match o with
  | NetworkError => True
  | HttpResponse st data => ok_status st = false \/ mappable_payload data = false
  end.

(** The first request of a run, if any, failed. *)
Definition call_failed (net : network) (tr : list event) : Prop :=
  exists req, head (requests tr) = Some req /\ outcome_failed (net 0%nat req).

(** A run never raises, and ends with the empty result when its outbound
    call failed. *)
Definition degrades_to_empty (net : network) (m : M SearchResult) : Prop :=
  exists r tr, run m net = (inr r, tr) /\ (call_failed net tr -> r = empty_result).

(** The shape shared by the bodies of the three wrappers once the request is
    built: one [axios.get], the result read off the payload, and the
    [catch] that logs and answers with the empty result. *)
Definition fetch (label : string) (req : request) : M SearchResult :=
  try_catch
    (data ← axios_get req;
     lift (read_result data))
    (fun error =>
       console_error label error;;
       mret empty_result).

(** The [pageSize] parameter of a request. *)
Definition page_size (req : request) : value := assoc "pageSize" (req_params req).

(** Two texts that differ only in the case of their letters. *)
Inductive case_variant : string -> string -> Prop :=
| cv_empty : case_variant EmptyString EmptyString
| cv_char c d s t :
    lower_char c = lower_char d -> case_variant s t ->
    case_variant (String c s) (String d t).

Fixpoint chars (s : string) : list ascii :=
  match s with
  | EmptyString => []
  | String c r => c :: chars r
  end.

(** The brief that a call of [sendNewsBrief] stores. *)
Definition brief_of (c : BriefArgs * string) : Brief :=
  {| summary := sb_summary c.1;
     priority := default medium (sb_priority c.1);
     timestamp := c.2 |}.

(** A sequence of [sendNewsBrief] calls, first to last, each with its
    arguments and its clock reading. *)
Definition send_all (calls : list (BriefArgs * string)) (recentBriefs : list Brief)
  : list Brief :=
  fold_left (fun briefs c => (sendNewsBrief c.1 c.2 briefs).2) calls recentBriefs.

(** The agent answered the call: the [axios.post] was fulfilled. *)
Definition answered (c : ChatService.Call) : Prop :=
  exists data, settle (ChatService.call_upstream c) = inr data.


End Vocabulary.

(** ** A host for the closed examples

    It agrees with JavaScript on what the examples feed to it: [Number] of a
    string of decimal digits is the number written, [Number] of the empty
    string is 0, an integer prints in decimal, and the difference of two
    integers below 2^53 is exact.  The date is symbolic. *)

Module ExampleHost.
Import JS NewsService.

Fixpoint digits (s : string) (acc : N) : option N :=
  match s with
  | EmptyString => Some acc
  | String c r =>
      if in_range 48 57 c then digits r (acc * 10 + (code c - 48))%N else None
  end.

Definition decimal (s : string) : number :=
  match digits s 0%N with
  | Some n => num (Z.of_N n)
  | None => NaN
  end.

Definition days_ago (n : number) : string :=
  match n with
  | Finite q => "now-" ++ pretty (Qfloor q) ++ "d"
  | _ => "Invalid Date"
  end.

Definition print (n : number) : string :=
  match n with
  | NaN => "NaN"
  | NegInfinity => "-Infinity"
  | Infinity => "Infinity"
  | Finite q => pretty (Qfloor q)
  end.

Definition exact (q : Q) : number :=
  if Qeq_bool q (inject_Z (Qfloor q)) then num (Qfloor q) else Finite (Qred q).

#[export, refine] Instance host : Host := {|
  StringToNumber := decimal;
  NumberToString := print;
  round_double := exact;
  getDateDaysAgo := days_ago;
  rejects_first := fun _ _ => true
|}.
Proof.
  intros q z Hq _. unfold exact.
  assert (Hz : Qfloor q = z) by (rewrite Hq; apply Qfloor_Z).
  rewrite Hz. rewrite (proj2 (Qeq_bool_iff _ _) Hq). reflexivity.
Defined.

End ExampleHost.

(** ** Vocabulary of the further properties *)

Module Observations.
Import JS Eff NewsService.

(** The two messages that an answered call of [processMessage] appends. *)
Definition exchange (c : ChatService.Call) : list ChatService.Message :=
  match settle (ChatService.call_upstream c) with
  | inr data =>
      [ {| ChatService.role := ChatService.user;
           ChatService.content := VStr (ChatService.call_message c);
           ChatService.timestamp := ChatService.call_t0 c |};
        {| ChatService.role := ChatService.assistant;
           ChatService.content := ChatService.assistantResponse data;
           ChatService.timestamp := ChatService.call_t1 c |} ]
  | inl _ => []
  end.


(** The sum of the counts of a tally. *)
Definition total {K} (m : list (K * nat)) : nat :=
  foldr (fun entry acc => (snd entry + acc)%nat) 0%nat m.

(** Counts in descending order. *)
Definition descending {K} (l : list (K * nat)) : Prop :=
  StronglySorted (fun a b => (snd b <= snd a)%nat) l.

(** What [m.get(k) || 0] reads from a tally. *)
Fixpoint count_for {K} (same : K -> K -> bool) (k : K) (m : list (K * nat)) : nat :=
  match m with
  | [] => 0%nat
  | (k', n) :: rest => if same k' k then n else count_for same k rest
  end.

(** The keyword tally of a list of words, as the inner loop builds it. *)
Definition tally_words (words : list string) (m : list (string * nat)) : list (string * nat) :=
  fold_left (fun m w => bump String.eqb w m) words m.

(** The source tally of a list of articles, as the outer loop builds it. *)
Definition tally_sources (arts : list NormalizedArticle) (m : list (value * nat))
  : list (value * nat) :=
  fold_left (fun m a => bump same_value_zero (source a) m) arts m.

(** The keywords of the title of an article (none when the title is no
    string). *)
Definition title_keywords (a : NormalizedArticle) : list string :=
  match title a with
  | VStr s => keywords_of s
  | _ => []
  end.

(** The fields of a normalized record: none is [undefined] or [null], and
    the source and the author are never empty. *)
Definition well_shaped (a : NormalizedArticle) : Prop :=
  is_nullish (title a) = false /\ is_nullish (description a) = false /\
  is_nullish (url a) = false /\ is_nullish (publishedAt a) = false /\
  is_nullish (content a) = false /\
  truthy (source a) = true /\ truthy (author a) = true.

(** The page size sent for the one asked for, [d] being the default of the
    wrapper: 0 and [NaN] count as not asked for, what exceeds 100 is cut to
    100, and anything else, negative or fractional, is sent as it is. *)
Definition page_size_rule (requested : option number) (d : Z) (sent : number) : Prop :=
  (requested = None \/ requested = Some NaN \/
   (exists q, requested = Some (Finite q) /\ (q == 0)%Q) -> sent = num d) /\
  (forall q, requested = Some (Finite q) -> ~ (q == 0)%Q -> (q <= 100)%Q -> sent = Finite q) /\
  (forall q, requested = Some (Finite q) -> (100 < q)%Q -> sent = num 100) /\
  (requested = Some Infinity -> sent = num 100) /\
  (requested = Some NegInfinity -> sent = NegInfinity).

(** The window used for the days asked for, [d] being the default and
    [lo], [hi] the bounds: 0 and [NaN] count as not asked for (the default,
    not the lower bound), what is below [lo] becomes [lo], what is above [hi]
    becomes [hi], and what lies between is taken as it is. *)
Definition window_rule (days : option number) (d lo hi : Z) (w : number) : Prop :=
  (days = None \/ days = Some NaN \/
   (exists q, days = Some (Finite q) /\ (q == 0)%Q) -> w = num d) /\
  (forall q, days = Some (Finite q) -> ~ (q == 0)%Q -> (q <= inject_Z lo)%Q -> w = num lo) /\
  (days = Some NegInfinity -> w = num lo) /\
  (forall q, days = Some (Finite q) -> (inject_Z lo < q)%Q -> (q <= inject_Z hi)%Q ->
             w = Finite q) /\
  (forall q, days = Some (Finite q) -> (inject_Z hi < q)%Q -> w = num hi) /\
  (days = Some Infinity -> w = num hi).

(** The [from] parameter of a request. *)
Definition from_param (req : request) : value := assoc "from" (req_params req).


(** Something was written by [console.error]. *)
Definition logged (tr : list event) : bool :=
  existsb (fun e => match e with ConsoleError _ _ => true | HttpGet _ => false end) tr.

(** A character that is part of a word of the title: it lower-cases to a
    letter or a digit. *)
Definition word_char (c : ascii) : bool := is_alnum (lower_char c).

End Observations.

(** ** services/MyFunctions.ts as first written: the query wrappers before
       [normalizeArticles]

    The three wrappers build the same requests; the articles are mapped by a
    callback written out in each of them, which reads [article.source.name]
    unguarded and passes the title, the url and the date through as they
    are. *)

Module FirstNewsService.
Import JS Eff.

(** The mapped article; [getTopHeadlines] and [getCompanyNews] give no
    [content]. *)
Record MappedArticle : Type := {
  title : value;
  description : value;
  url : value;
  source : value;
  publishedAt : value;
  author : value;
  content : option value
}.

Record SearchResult : Type := {
  articles : list MappedArticle;
  totalResults : value
}.

Definition empty_result : SearchResult :=
  {| articles := []; totalResults := VNum (num 0) |}.

(** The callback of [getTopHeadlines] and of [getCompanyNews]. *)
Definition mapHeadline (article : value) : option MappedArticle :=
  a_title ← get_prop article "title";
  a_description ← get_prop article "description";
  a_url ← get_prop article "url";
  a_source ← get_prop article "source";
  a_source_name ← get_prop a_source "name";
  a_publishedAt ← get_prop article "publishedAt";
  a_author ← get_prop article "author";
  Some {|
    title := a_title;
    description := or_else a_description (VStr "");
    url := a_url;
    source := a_source_name;
    publishedAt := a_publishedAt;
    author := or_else a_author (VStr "Unknown");
    content := None
  |}.

(** The callback of [searchNews]. *)
Definition mapSearched (article : value) : option MappedArticle :=
  a_title ← get_prop article "title";
  a_description ← get_prop article "description";
  a_url ← get_prop article "url";
  a_source ← get_prop article "source";
  a_source_name ← get_prop a_source "name";
  a_publishedAt ← get_prop article "publishedAt";
  a_author ← get_prop article "author";
  a_content ← get_prop article "content";
  Some {|
    title := a_title;
    description := or_else a_description (VStr "");
    url := a_url;
    source := a_source_name;
    publishedAt := a_publishedAt;
    author := or_else a_author (VStr "Unknown");
    content := Some (or_else a_content (VStr ""))
  |}.

(** [response.data.articles.map(callback)], then
    [response.data.totalResults]. *)
Definition read_result (callback : value -> option MappedArticle) (data : value)
  : option SearchResult :=
  raw ← get_prop data "articles";
  mapped ← match raw with
           | VArr items => mapM callback items
           | _ => None
           end;
  total ← get_prop data "totalResults";
  Some {| articles := mapped; totalResults := total |}.

Definition getTopHeadlines (apiKey : string) (args : NewsService.HeadlinesArgs)
  : M SearchResult :=
  try_catch
    (let params := [
       ("apiKey", VStr apiKey);
       ("country", or_else (NewsService.th_country args) (VStr "us"));
       ("pageSize",
        VNum (Math_min (num_or (NewsService.th_pageSize args) (num 20)) (num 100)))
     ] in
     let params :=
       if truthy (NewsService.th_category args)
       then params ++ [("category", NewsService.th_category args)]
       else params in
     data ← axios_get {| req_url := NewsService.NEWS_API_BASE_URL ++ "/top-headlines";
                         req_params := params |};
     lift (read_result mapHeadline data))
    (fun error =>
       console_error "Error fetching top headlines:" error;;
       mret empty_result).

Definition searchNews (apiKey : string) (args : NewsService.SearchArgs) : M SearchResult :=
  try_catch
    (if negb (truthy (NewsService.sn_query args)) then mret empty_result
     else
       let params := [
         ("apiKey", VStr apiKey);
         ("q", NewsService.sn_query args);
         ("sortBy", or_else (NewsService.sn_sortBy args) (VStr "relevancy"));
         ("language", or_else (NewsService.sn_language args) (VStr "en"));
         ("pageSize",
          VNum (Math_min (num_or (NewsService.sn_pageSize args) (num 20)) (num 100)))
       ] in
       data ← axios_get {| req_url := NewsService.NEWS_API_BASE_URL ++ "/everything";
                           req_params := params |};
       lift (read_result mapSearched data))
    (fun error =>
       console_error "Error searching news:" error;;
       mret empty_result).

Definition getCompanyNews (apiKey : string) (args : NewsService.CompanyArgs)
  : M SearchResult :=
  try_catch
    (if negb (truthy (NewsService.cn_companyName args)) then mret empty_result
     else
       let params := [
         ("apiKey", VStr apiKey);
         ("q", NewsService.cn_companyName args);
         ("sortBy", VStr "publishedAt");
         ("language", VStr "en");
         ("pageSize",
          VNum (Math_min (num_or (NewsService.cn_pageSize args) (num 10)) (num 100)))
       ] in
       let params :=
         if truthy (NewsService.cn_dateFrom args)
         then params ++ [("from", NewsService.cn_dateFrom args)]
         else params in
       let params :=
         if truthy (NewsService.cn_dateTo args)
         then params ++ [("to", NewsService.cn_dateTo args)]
         else params in
       data ← axios_get {| req_url := NewsService.NEWS_API_BASE_URL ++ "/everything";
                           req_params := params |};
       lift (read_result mapHeadline data))
    (fun error =>
       console_error "Error fetching company news:" error;;
       mret empty_result).

End FirstNewsService.

(** ** Vocabulary for the two versions of the wrappers *)

Module Revisions.
Import JS Eff Observations.

(** The shape shared by the first wrappers once the request is built. *)
Definition first_fetch (callback : value -> option FirstNewsService.MappedArticle)
    (label : string) (req : request) : M FirstNewsService.SearchResult :=
  try_catch
    (data ← axios_get req;
     lift (FirstNewsService.read_result callback data))
    (fun error =>
       console_error label error;;
       mret FirstNewsService.empty_result).

(** The first version and the present one on the same network: both answer,
    after the same requests; when the first version read its answer, so does
    the present one, with the same total and as many articles. *)
Definition answers_carry_over (net : network)
    (first : M FirstNewsService.SearchResult) (present : M NewsService.SearchResult) : Prop :=
  exists rf trf rp trp,
    run first net = (inr rf, trf) /\
    run present net = (inr rp, trp) /\
    requests trf = requests trp /\
    (logged trf = false ->
     logged trp = false /\
     NewsService.totalResults rp = FirstNewsService.totalResults rf /\
     List.length (NewsService.articles rp) = List.length (FirstNewsService.articles rf)).

(** An answer that the present version reads in full but that holds an
    article without a [source] object: the first version answers with the
    empty result, and logs. *)
Definition lost_without_source (net : network)
    (first : M FirstNewsService.SearchResult) (present : M NewsService.SearchResult) : Prop :=
  forall req data items,
    head (requests (run first net).2) = Some req ->
    settle (net 0%nat req) = inr data ->
    get_prop_opt data "articles" = VArr items ->
    Forall (fun item => is_nullish item = false) items ->
    Exists (fun item => is_nullish (get_prop_opt item "source") = true) items ->
    (run first net).1 = inr FirstNewsService.empty_result /\
    logged (run first net).2 = true /\
    exists rp, (run present net).1 = inr rp /\
               List.length (NewsService.articles rp) = List.length items /\
               logged (run present net).2 = false.

End Revisions.

(** * Properties *)

(** ** The embedding on small inputs *)

Module Examples.
Import JS Eff NewsService ChatService.

Example split_leading_and_trailing : split_spaces " a  b " = [""; "a"; "b"; ""].
Proof. reflexivity. Qed.

Example split_empty : split_spaces "" = [""].
Proof. reflexivity. Qed.

Example keywords_of_headline :
  keywords_of "The QUICK brown-fox jumps over their lazy dogs! Apple's 2024 earnings"
  = ["quick"; "brown"; "jumps"; "lazy"; "dogs"; "apple"; "2024"; "earnings"].
Proof. vm_compute. reflexivity. Qed.

Example keywords_of_number : extractKeywords (VNum (num 5)) = None.
Proof. reflexivity. Qed.

Example normalize_null_element : normalizeArticles (VArr [VNull]) = None.
Proof. reflexivity. Qed.

Example normalize_not_an_array : normalizeArticles (VObj [("0", VStr "x")]) = None.
Proof. reflexivity. Qed.

Example sort_desc_is_stable :
  sort_desc [("a", 1); ("b", 3); ("c", 1); ("d", 3)]%nat
  = [("b", 3); ("d", 3); ("a", 1); ("c", 1)]%nat.
Proof. reflexivity. Qed.

Example bump_keeps_place :
  fold_left (fun m w => bump String.eqb w m) ["x"; "y"; "x"] []
  = [("x", 2); ("y", 1)]%nat.
Proof. reflexivity. Qed.

Example reply_from_nested_data :
  assistantResponse (VObj [("data", VObj [("message", VStr "hi")])]) = VStr "hi".
Proof. reflexivity. Qed.

Example reply_empty_string_is_kept :
  assistantResponse (VObj [("response", VStr ""); ("message", VStr "hi")]) = VStr "".
Proof. reflexivity. Qed.

Example reply_default : assistantResponse VNull = VStr "no response received from agent.".
Proof. reflexivity. Qed.

Example pulse_of_two_articles :
  run (getIndustryPulse (H := ExampleHost.host) "key"
         {| ip_industry := "fintech"; ip_days := Some (num 100); ip_language := VUndef |})
      (fun _ _ => HttpResponse 200
         (VObj [("status", VStr "ok"); ("totalResults", VNum (num 2));
                ("articles",
                 VArr [VObj [("title", VStr "Fintech startups raise funding");
                             ("source", VObj [("id", VNull); ("name", VStr "Wired")])];
                       VObj [("title", VStr "Funding for fintech slows");
                             ("source", VObj [("name", VStr "Wired")])]])]))
  = (inr {| pulse_industry := "fintech";
            pulse_windowDays := num 14;
            pulse_totalResults := VNum (num 2);
            pulse_topSources := [(VStr "Wired", 2%nat)];
            pulse_topKeywords :=
              [("fintech", 2); ("funding", 2); ("startups", 1); ("raise", 1); ("slows", 1)]%nat;
            pulse_notableHeadlines :=
              [{| h_title := VStr "Fintech startups raise funding"; h_source := VStr "Wired";
                  h_publishedAt := VStr ""; h_url := VStr "" |};
               {| h_title := VStr "Funding for fintech slows"; h_source := VStr "Wired";
                  h_publishedAt := VStr ""; h_url := VStr "" |}] |},
     [HttpGet {| req_url := "https://newsapi.org/v2/everything";
                 req_params :=
                   [("apiKey", VStr "key"); ("q", VStr "fintech");
                    ("from", VStr "now-14d"); ("sortBy", VStr "publishedAt");
                    ("language", VStr "en"); ("pageSize", VNum (num 15))] |}]).
Proof. vm_compute. reflexivity. Qed.

Example number_of_object_with_toString :
  Coerce.ToNumber (H := ExampleHost.host) (VObj [("toString", VStr "1")]) = None.
Proof. reflexivity. Qed.

Example number_of_plain_object :
  Coerce.ToNumber (H := ExampleHost.host) (VObj [("a", VStr "1")]) = Some NaN.
Proof. reflexivity. Qed.

Example number_of_repeated_parameter :
  Coerce.ToNumber (H := ExampleHost.host) (VArr [VStr "3"; VStr "4"]) = Some NaN /\
  Coerce.ToNumber (H := ExampleHost.host) (VArr [VStr "3"]) = Some (num 3).
Proof. split; reflexivity. Qed.

(** Totals that cannot be subtracted: the comparison leaves through its
    [catch]. *)
Example compare_totals_not_subtractable :
  run (compareCompanyCoverage (H := ExampleHost.host) "key"
         {| cc_companyA := "Apple"; cc_companyB := "Microsoft"; cc_days := None |})
      (fun _ _ => HttpResponse 200
         (VObj [("totalResults", VObj [("toString", VStr "1")]); ("articles", VArr [])]))
  = (inr {| cov_windowDays := num 7;
            cov_companyA := {| side_name := "Apple"; side_totalResults := VNum (num 0);
                               side_recentHeadlines := [] |};
            cov_companyB := {| side_name := "Microsoft"; side_totalResults := VNum (num 0);
                               side_recentHeadlines := [] |};
            cov_deltaCoverage := num 0 |},
     [HttpGet {| req_url := "https://newsapi.org/v2/everything";
                 req_params :=
                   [("apiKey", VStr "key"); ("q", VStr "Apple");
                    ("from", VStr "now-7d"); ("sortBy", VStr "publishedAt");
                    ("language", VStr "en"); ("pageSize", VNum (num 10))] |};
      HttpGet {| req_url := "https://newsapi.org/v2/everything";
                 req_params :=
                   [("apiKey", VStr "key"); ("q", VStr "Microsoft");
                    ("from", VStr "now-7d"); ("sortBy", VStr "publishedAt");
                    ("language", VStr "en"); ("pageSize", VNum (num 10))] |};
      ConsoleError "error comparing company coverage:" TypeError]).
Proof. vm_compute. reflexivity. Qed.

Example compare_counts :
  exists tr,
    run (compareCompanyCoverage (H := ExampleHost.host) "key"
           {| cc_companyA := "Apple"; cc_companyB := "Microsoft"; cc_days := None |})
        (fun n _ => HttpResponse 200
           (VObj [("totalResults", VNum (num (if n is O then 3 else 10)));
                  ("articles", VArr [])]))
    = (inr {| cov_windowDays := num 7;
              cov_companyA := {| side_name := "Apple"; side_totalResults := VNum (num 3);
                                 side_recentHeadlines := [] |};
              cov_companyB := {| side_name := "Microsoft"; side_totalResults := VNum (num 10);
                                 side_recentHeadlines := [] |};
              cov_deltaCoverage := num (-7) |}, tr).
Proof. eexists. vm_compute. reflexivity. Qed.

End Examples.

Module BriefFacts.
Import JS NewsService Vocabulary.

Lemma removelast_take {A} (l : list A) :
  removelast l = take (List.length l - 1) l.
Proof.
  induction l as [|x l IH]; [reflexivity|].
  destruct l as [|y l]; [reflexivity|].
  change (removelast (x :: y :: l)) with (x :: removelast (y :: l)).
  rewrite IH.
  replace (List.length (x :: y :: l) - 1)%nat
    with (S (List.length (y :: l) - 1)) by (cbn [List.length]; lia).
  reflexivity.
Qed.

(** One call from a list within the bound: the new brief in front, the ten
    newest kept. *)
Lemma sendNewsBrief_take args now (briefs : list Brief) :
  (List.length briefs <= 10)%nat ->
  (sendNewsBrief args now briefs).2 = take 10 (brief_of (args, now) :: briefs).
Proof.
  intros Hlen. unfold sendNewsBrief, brief_of. cbn [snd fst].
  set (b := {| summary := _ |}).
  destruct (10 <? List.length (b :: briefs))%nat eqn:E.
  - apply Nat.ltb_lt in E. cbn [List.length] in E.
    rewrite removelast_take. cbn [List.length].
    replace (S (List.length briefs) - 1)%nat with 10%nat by lia. reflexivity.
  - apply Nat.ltb_ge in E. symmetry. apply take_ge. exact E.
Qed.

Lemma send_all_snoc calls c briefs :
  send_all (calls ++ [c]) briefs = (sendNewsBrief c.1 c.2 (send_all calls briefs)).2.
Proof. unfold send_all. rewrite fold_left_app. reflexivity. Qed.

End BriefFacts.

(** C9. After any sequence of [sendNewsBrief] calls on the initially empty
    list, the stored briefs are at most 10 and are the (up to) ten newest,
    newest first: each call puts its brief in front, and the oldest leaves at
    the back once there are more than 10. *)
Theorem C9_recent_briefs_bounded_newest_first :
  forall calls : list (NewsService.BriefArgs * string),
    (List.length (Vocabulary.send_all calls []) <= 10)%nat /\
    Vocabulary.send_all calls [] = take 10 (rev (List.map Vocabulary.brief_of calls)).
Proof.
  intros calls.
  assert (H : Vocabulary.send_all calls [] = take 10 (rev (List.map Vocabulary.brief_of calls))).
  { induction calls as [|c calls IH] using rev_ind; [reflexivity|].
    rewrite BriefFacts.send_all_snoc, IH.
    rewrite BriefFacts.sendNewsBrief_take by (rewrite length_take; lia).
    rewrite List.map_app, rev_app_distr. cbn [List.map rev app].
    destruct c as [args now]. cbn [fst snd].
    change 10%nat with (S 9) at 1 3. cbn [take].
    f_equal. rewrite take_take. reflexivity. }
  split; [|exact H].
  rewrite H, length_take. lia.
Qed.

Module KeywordFacts.
Import JS NewsService Vocabulary.

Lemma chars_map_chars f s : chars (map_chars f s) = List.map f (chars s).
Proof. induction s as [|c s IH]; cbn; [reflexivity | now rewrite IH]. Qed.

Lemma split_spaces_nonempty s : split_spaces s <> [].
Proof.
  induction s as [|c s IH]; cbn; [discriminate|].
  destruct (is_space c).
  - destruct (starts_with_space s); [exact IH | discriminate].
  - destruct (split_spaces s); discriminate.
Qed.

(** A piece of the split is made of characters of the text, none of them
    white space. *)
Lemma split_spaces_chars s piece c :
  In piece (split_spaces s) -> In c (chars piece) ->
  In c (chars s) /\ is_space c = false.
Proof.
  revert piece. induction s as [|a s IH]; intros piece Hp Hc; cbn in Hp.
  - destruct Hp as [<-|[]]. destruct Hc.
  - destruct (is_space a) eqn:Ea.
    + assert (Hin : piece = EmptyString \/ In piece (split_spaces s)).
      { destruct (starts_with_space s); [now right|].
        destruct Hp as [<-|Hp]; [now left | now right]. }
      destruct Hin as [->|Hin]; [destruct Hc|].
      destruct (IH _ Hin Hc) as [H1 H2]. split; [now right | exact H2].
    + destruct (split_spaces s) as [|p ps] eqn:Es.
      { now destruct (split_spaces_nonempty s). }
      destruct Hp as [<-|Hp].
      * destruct Hc as [<-|Hc]; [split; [now left | exact Ea]|].
        destruct (IH p (or_introl eq_refl) Hc) as [H1 H2].
        split; [now right | exact H2].
      * destruct (IH piece (or_intror Hp) Hc) as [H1 H2].
        split; [now right | exact H2].
Qed.

Lemma strip_char_kept c : is_alnum (strip_char c) || is_space (strip_char c) = true.
Proof.
  unfold strip_char. destruct (is_alnum c || is_space c) eqn:E; [exact E|].
  reflexivity.
Qed.

(** What the filter lets through. *)
Lemma keep_word_spec w :
  keep_word w = true <-> (3 < String.length w)%nat /\ w ∉ stopWords.
Proof.
  unfold keep_word. rewrite andb_true_iff, Nat.ltb_lt, negb_true_iff.
  rewrite bool_decide_eq_false. reflexivity.
Qed.

(** The characters of a keyword are lower-case letters and digits. *)
Lemma keywords_of_alnum text w c :
  In w (keywords_of text) -> In c (chars w) -> is_alnum c = true.
Proof.
  unfold keywords_of. intros Hw Hc.
  apply filter_In in Hw as [Hw _].
  destruct (split_spaces_chars _ _ _ Hw Hc) as [Hin Hsp].
  unfold strip_punctuation in Hin. rewrite chars_map_chars in Hin.
  apply in_map_iff in Hin as [d [<- _]].
  pose proof (strip_char_kept d) as Hk. rewrite Hsp, orb_false_r in Hk. exact Hk.
Qed.

Lemma lower_case_variant s t : case_variant s t -> toLowerCase s = toLowerCase t.
Proof.
  induction 1 as [|c d s t Hcd _ IH]; [reflexivity|].
  unfold toLowerCase in *. cbn. now rewrite Hcd, IH.
Qed.

End KeywordFacts.

(** C7. On every text, keyword extraction answers with the pieces of the
    lower-cased, punctuation-stripped text: every keyword is longer than 3
    characters, is no stop-word and consists of lower-case letters and digits
    only; two texts that differ only in the case of their letters give the
    same keywords. *)
Theorem C7_extractKeywords_filtered_case_insensitive :
  forall text : string,
  exists ws,
    NewsService.extractKeywords (JS.VStr text) = Some ws /\
    (forall w, In w ws ->
       (3 < String.length w)%nat /\
       (w ∉ NewsService.stopWords) /\
       Forall (fun c => NewsService.is_alnum c = true) (Vocabulary.chars w)) /\
    (forall text', Vocabulary.case_variant text text' ->
       NewsService.extractKeywords (JS.VStr text') = Some ws).
Proof.
  intros text. exists (NewsService.keywords_of text).
  split; [reflexivity|]. split.
  - intros w Hw.
    assert (Hk : NewsService.keep_word w = true).
    { unfold NewsService.keywords_of in Hw. now apply filter_In in Hw. }
    apply KeywordFacts.keep_word_spec in Hk as [Hlen Hstop].
    split; [exact Hlen|]. split; [exact Hstop|].
    apply List.Forall_forall. intros c Hc.
    exact (KeywordFacts.keywords_of_alnum text w c Hw Hc).
  - intros text' Hv. cbn. unfold NewsService.keywords_of.
    now rewrite (KeywordFacts.lower_case_variant _ _ Hv).
Qed.

Lemma C7_witness :
  exists ws,
    NewsService.extractKeywords (JS.VStr "The Fed RAISES rates; markets in 2024") = Some ws /\
    ws = ["raises"; "rates"; "markets"; "2024"] /\
    ((3 < String.length "raises")%nat /\
     ("raises" ∉ NewsService.stopWords) /\
     Forall (fun c => NewsService.is_alnum c = true) (Vocabulary.chars "raises")) /\
    NewsService.extractKeywords (JS.VStr "the fed raises Rates; MARKETS in 2024") = Some ws.
Proof.
  destruct (C7_extractKeywords_filtered_case_insensitive
              "The Fed RAISES rates; markets in 2024") as [ws [Hws [Htok Hcase]]].
  exists ws.
  assert (E : ws = ["raises"; "rates"; "markets"; "2024"]).
  { change (Some (NewsService.keywords_of "The Fed RAISES rates; markets in 2024") = Some ws)
      in Hws.
    injection Hws as <-. vm_compute. reflexivity. }
  split; [exact Hws|]. split; [exact E|]. split.
  - apply Htok. rewrite E. left. reflexivity.
  - apply Hcase.
    repeat (first [apply Vocabulary.cv_empty
                  | apply Vocabulary.cv_char; [vm_compute; reflexivity|]]).
Defined.

Module NormalizeFacts.
Import JS NewsService Vocabulary.

Lemma or_else_string x d :
  optional_string x = true -> is_string (or_else x (VStr d)) = true.
Proof. destruct x; try discriminate; intros _; unfold or_else; cbn; try reflexivity.
  now destruct (negb _). Qed.

Lemma optional_or_else x y :
  optional_string x = true -> optional_string y = true ->
  optional_string (or_else x y) = true.
Proof. intros Hx Hy. unfold or_else. now destruct (truthy x). Qed.

Lemma normalizeArticle_object props :
  normalizeArticle (VObj props) =
  Some {|
    title := or_else (assoc "title" props) (VStr "");
    description := or_else (assoc "description" props) (VStr "");
    url := or_else (assoc "url" props) (VStr "");
    source := or_else (get_prop_opt (assoc "source" props) "name") (VStr "unknown");
    publishedAt := or_else (assoc "publishedAt" props) (VStr "");
    author := or_else (assoc "author" props) (VStr "Unknown");
    content := or_else (or_else (assoc "content" props) (assoc "description" props)) (VStr "")
  |}.
Proof. reflexivity. Qed.

(** The normalization of one record typed as the interface. *)
Lemma normalizeArticle_interface article :
  interface_article article = true ->
  exists a,
    normalizeArticle article = Some a /\
    all_strings a = true /\
    author a = (if truthy (get_prop_opt article "author")
                then get_prop_opt article "author" else VStr "Unknown") /\
    description a = (if truthy (get_prop_opt article "description")
                     then get_prop_opt article "description" else VStr "") /\
    content a = (if truthy (get_prop_opt article "content")
                 then get_prop_opt article "content" else description a).
Proof.
  destruct article as [| | | | | |props]; try discriminate.
  cbn [interface_article get_prop_opt]. intros H.
  repeat (apply andb_prop in H as [H ?]).
  eexists. split; [apply normalizeArticle_object|].
  cbn [author description content]. split; [|split; [reflexivity|split; [reflexivity|]]].
  - unfold all_strings.
    cbn [title description url source publishedAt author content].
    rewrite !or_else_string; try assumption; try reflexivity.
    + apply optional_or_else; assumption.
    + destruct (assoc "source" props); try discriminate; try reflexivity. assumption.
  - unfold or_else. destruct (truthy (assoc "content" props)) eqn:Ec.
    + rewrite Ec. reflexivity.
    + destruct (truthy (assoc "description" props)) eqn:Ed; rewrite ?Ed; reflexivity.
Qed.

End NormalizeFacts.

(** C2 does not hold as stated: a record without [content] but with a
    [description] is given the description as content, not the empty
    string. *)
Lemma C2_counterexample :
  ~ (forall article a,
       Vocabulary.interface_article article = true ->
       NewsService.normalizeArticle article = Some a ->
       JS.truthy (JS.get_prop_opt article "content") = false ->
       NewsService.content a = JS.VStr "").
Proof.
  intros H.
  specialize (H (JS.VObj [("title", JS.VStr "Stocks"); ("description", JS.VStr "Markets rally");
                          ("content", JS.VNull)])
                _ eq_refl eq_refl eq_refl).
  discriminate H.
Qed.

(** C2, amended.  On every list of article records typed as the upstream
    interface (fields strings, [null] or missing), normalization succeeds
    and, record by record, all seven output fields are strings; a missing
    author becomes "Unknown", a missing description the empty string, and a
    missing content the (normalized) description, hence the empty string only
    when the description is missing too. *)
Theorem C2_normalizeArticles_defaults :
  forall items : list JS.value,
    Forall (fun article => Vocabulary.interface_article article = true) items ->
    exists out,
      NewsService.normalizeArticles (JS.VArr items) = Some out /\
      Forall2 (fun article a =>
        Vocabulary.all_strings a = true /\
        NewsService.author a =
          (if JS.truthy (JS.get_prop_opt article "author")
           then JS.get_prop_opt article "author" else JS.VStr "Unknown") /\
        NewsService.description a =
          (if JS.truthy (JS.get_prop_opt article "description")
           then JS.get_prop_opt article "description" else JS.VStr "") /\
        NewsService.content a =
          (if JS.truthy (JS.get_prop_opt article "content")
           then JS.get_prop_opt article "content" else NewsService.description a))
        items out.
Proof.
  intros items Hall. cbn [NewsService.normalizeArticles].
  induction Hall as [|article items Hart _ [out [Hout Hrel]]].
  - exists []. split; [reflexivity | constructor].
  - destruct (NormalizeFacts.normalizeArticle_interface article Hart) as [a [Ha Hprops]].
    exists (a :: out). split.
    + cbn [mapM]. rewrite Ha. cbn. rewrite Hout. reflexivity.
    + constructor; assumption.
Qed.

Lemma C2_witness :
  exists out,
    NewsService.normalizeArticles
      (JS.VArr [JS.VObj [("title", JS.VStr "Stocks"); ("author", JS.VNull)];
                JS.VObj [("description", JS.VStr "Markets rally"); ("content", JS.VNull)]])
    = Some out /\
    List.map NewsService.author out = [JS.VStr "Unknown"; JS.VStr "Unknown"] /\
    List.map NewsService.description out = [JS.VStr ""; JS.VStr "Markets rally"] /\
    List.map NewsService.content out = [JS.VStr ""; JS.VStr "Markets rally"].
Proof.
  destruct (C2_normalizeArticles_defaults
              [JS.VObj [("title", JS.VStr "Stocks"); ("author", JS.VNull)];
               JS.VObj [("description", JS.VStr "Markets rally"); ("content", JS.VNull)]])
    as [out [Hout _]].
  - repeat constructor.
  - exists out. split; [exact Hout|].
    vm_compute in Hout. injection Hout as <-. repeat split.
Defined.

Module WrapperFacts.
Import JS Eff NewsService Vocabulary.

Ltac unfold_eff :=
  unfold run, fetch, try_catch, axios_get, send, await, lift, console_error,
    mbind, M_bind, bind, mret, M_ret, ret, throw in *.

(** What a [fetch] does, by the outcome of its request. *)
Lemma fetch_run label req net :
  run (fetch label req) net =
  match settle (net 0%nat req) with
  | inr data =>
      match read_result data with
      | Some r => (inr r, [HttpGet req])
      | None => (inr empty_result, [HttpGet req; ConsoleError label TypeError])
      end
  | inl e => (inr empty_result, [HttpGet req; ConsoleError label e])
  end.
Proof.
  unfold_eff. change (List.length (requests [])) with 0%nat.
  destruct (settle (net 0%nat req)) as [e|data]; [reflexivity|].
  destruct (read_result data); reflexivity.
Qed.

Lemma normalizeArticle_is_Some item :
  is_nullish item = false -> is_Some (normalizeArticle item).
Proof. destruct item; try discriminate; intros _; eexists; reflexivity. Qed.

Lemma normalizeArticle_nullish item :
  is_nullish item = true -> normalizeArticle item = None.
Proof. destruct item; try discriminate; reflexivity. Qed.

(** The payloads from which a result can be read are exactly the mappable
    ones. *)
Lemma read_result_mappable data :
  is_Some (read_result data) <-> mappable_payload data = true.
Proof.
  unfold read_result, mappable_payload.
  destruct data as [| | b | n | s | items | props]; cbn;
    try (split; [intros [? ?]; discriminate | discriminate]).
  destruct (assoc "articles" props) as [| | | | | items |]; cbn;
    try (split; [intros [? ?]; discriminate | discriminate]).
  assert (Hmap : is_Some (mapM normalizeArticle items) <->
                 forallb (fun item => negb (is_nullish item)) items = true).
  { rewrite mapM_is_Some, forallb_forall, List.Forall_forall.
    split; intros Hall item Hin; specialize (Hall item Hin).
    - destruct (is_nullish item) eqn:En; [|reflexivity].
      cbn in Hall. rewrite normalizeArticle_nullish in Hall by exact En.
      now destruct Hall.
    - apply normalizeArticle_is_Some, negb_true_iff, Hall. }
  rewrite <- Hmap.
  destruct (mapM normalizeArticle items); cbn; split; intros [? ?]; try discriminate; eauto.
Qed.

End WrapperFacts.

Module QueryFacts.
Import JS Eff NewsService Vocabulary WrapperFacts.

(** A default that is a number keeps [n || d] away from [NaN], and the
    minimum with 100 at or below 100. *)
Lemma page_size_capped (p : option number) (d : Z) :
  num_leb (Math_min (num_or p (num d)) (num 100)) (num 100) = true.
Proof.
  assert (H : forall x, x <> NaN -> num_leb (Math_min x (num 100)) (num 100) = true).
  { intros [| |q|] Hx; try reflexivity; [congruence|].
    cbn. destruct (Qle_bool q (inject_Z 100)) eqn:E; cbn; [exact E | reflexivity]. }
  apply H. destruct p as [[| |q|]|]; cbn; try discriminate.
  destruct (negb (Qeq_bool q 0)); discriminate.
Qed.

Lemma assoc_app_first k v (l l' : list (string * value)) :
  assoc k l = v -> v <> VUndef -> assoc k (l ++ l') = v.
Proof.
  induction l as [|[k' v'] l IH]; cbn; [congruence|].
  destruct (String.eqb k k'); [trivial | exact IH].
Qed.

Lemma getTopHeadlines_fetch key args :
  exists req,
    getTopHeadlines key args = fetch "error fetching top headlines:" req /\
    page_size req = VNum (Math_min (num_or (th_pageSize args) (num 20)) (num 100)).
Proof.
  unfold getTopHeadlines, fetch. eexists. split; [reflexivity|].
  unfold page_size. cbn [req_params].
  destruct (truthy (th_category args)); reflexivity.
Qed.

Lemma searchNews_fetch key args :
  truthy (sn_query args) = true ->
  exists req,
    searchNews key args = fetch "error searching news:" req /\
    page_size req = VNum (Math_min (num_or (sn_pageSize args) (num 20)) (num 100)).
Proof.
  intros Hq. unfold searchNews, fetch. rewrite Hq. eexists. split; reflexivity.
Qed.

Lemma getCompanyNews_fetch key args :
  truthy (cn_companyName args) = true ->
  exists req,
    getCompanyNews key args = fetch "error fetching company news:" req /\
    page_size req = VNum (Math_min (num_or (cn_pageSize args) (num 10)) (num 100)).
Proof.
  intros Hq. unfold getCompanyNews, fetch. rewrite Hq. eexists. split; [reflexivity|].
  unfold page_size. cbn [req_params negb].
  destruct (truthy (cn_dateFrom args)), (truthy (cn_dateTo args)); reflexivity.
Qed.

(** The guard at the head of [searchNews] and [getCompanyNews]. *)
Lemma searchNews_guard key args net :
  truthy (sn_query args) = false ->
  run (searchNews key args) net = (inr empty_result, []).
Proof. intros Hq. unfold searchNews. rewrite Hq. reflexivity. Qed.

Lemma getCompanyNews_guard key args net :
  truthy (cn_companyName args) = false ->
  run (getCompanyNews key args) net = (inr empty_result, []).
Proof. intros Hq. unfold getCompanyNews. rewrite Hq. reflexivity. Qed.

Lemma fetch_degrades label req net : degrades_to_empty net (fetch label req).
Proof.
  unfold degrades_to_empty. rewrite fetch_run.
  destruct (settle (net 0%nat req)) as [e|data] eqn:Es.
  - eexists _, _. split; [reflexivity | trivial].
  - destruct (read_result data) as [r|] eqn:Er.
    + eexists _, _. split; [reflexivity|].
      intros [req' [Hhead Hfail]].
      change (Some req = Some req') in Hhead. injection Hhead as <-.
      unfold settle in Es. destruct (net 0%nat req) as [|st d]; [discriminate Es|].
      cbv beta iota in Es.
      destruct (ok_status st) eqn:Eok; [|discriminate Es]. injection Es as ->.
      destruct Hfail as [Hfail|Hfail]; [congruence|].
      assert (Hs : is_Some (read_result data)) by eauto.
      apply read_result_mappable in Hs. congruence.
    + eexists _, _. split; [reflexivity | trivial].
Qed.

Lemma fetch_requests label req net : requests (run (fetch label req) net).2 = [req].
Proof.
  rewrite fetch_run. destruct (settle (net 0%nat req)); [reflexivity|].
  destruct (read_result _); reflexivity.
Qed.

End QueryFacts.

(** C5. The three query wrappers never raise: every run ends with a result,
    and whenever the outbound call failed (no answer, a status outside 2xx,
    or a payload whose articles cannot be mapped) that result is
    [{ articles: [], totalResults: 0 }]. *)
Theorem C5_wrappers_degrade_to_empty :
  forall (apiKey : string) (net : Eff.network),
    (forall args, Vocabulary.degrades_to_empty net (NewsService.getTopHeadlines apiKey args)) /\
    (forall args, Vocabulary.degrades_to_empty net (NewsService.searchNews apiKey args)) /\
    (forall args, Vocabulary.degrades_to_empty net (NewsService.getCompanyNews apiKey args)).
Proof.
  intros apiKey net. repeat split; intros args.
  - destruct (QueryFacts.getTopHeadlines_fetch apiKey args) as [req [-> _]].
    apply QueryFacts.fetch_degrades.
  - destruct (JS.truthy (NewsService.sn_query args)) eqn:Hq.
    + destruct (QueryFacts.searchNews_fetch apiKey args Hq) as [req [-> _]].
      apply QueryFacts.fetch_degrades.
    + exists NewsService.empty_result, [].
      split; [now apply QueryFacts.searchNews_guard | trivial].
  - destruct (JS.truthy (NewsService.cn_companyName args)) eqn:Hq.
    + destruct (QueryFacts.getCompanyNews_fetch apiKey args Hq) as [req [-> _]].
      apply QueryFacts.fetch_degrades.
    + exists NewsService.empty_result, [].
      split; [now apply QueryFacts.getCompanyNews_guard | trivial].
Qed.

Lemma C5_witness :
  exists tr,
    Eff.run (NewsService.searchNews "key"
               {| NewsService.sn_query := JS.VStr "fintech";
                  NewsService.sn_sortBy := JS.VUndef;
                  NewsService.sn_language := JS.VUndef;
                  NewsService.sn_pageSize := None |})
            (fun _ _ => Eff.HttpResponse 500 JS.VNull)
    = (inr NewsService.empty_result, tr).
Proof.
  destruct (C5_wrappers_degrade_to_empty "key" (fun _ _ => Eff.HttpResponse 500 JS.VNull))
    as [_ [Hsearch _]].
  destruct (Hsearch {| NewsService.sn_query := JS.VStr "fintech";
                       NewsService.sn_sortBy := JS.VUndef;
                       NewsService.sn_language := JS.VUndef;
                       NewsService.sn_pageSize := None |}) as [r [tr [Hrun Hfail]]].
  exists tr. rewrite Hrun. f_equal. f_equal. apply Hfail.
  vm_compute in Hrun. injection Hrun as _ <-.
  eexists. split; [reflexivity|]. left. reflexivity.
Defined.

(** C6. [getTopHeadlines] always sends one request, and [searchNews] and
    [getCompanyNews] send one whenever their query is there (and none
    otherwise); the request sent carries a [pageSize] that is a number at
    most 100, whatever page size was asked for; when none was asked for it is
    20, 20 and 10 respectively. *)
Theorem C6_page_size_capped_with_defaults :
  forall (apiKey : string) (net : Eff.network),
    (forall args,
       exists req n,
         Eff.requests (Eff.run (NewsService.getTopHeadlines apiKey args) net).2 = [req] /\
         Vocabulary.page_size req = JS.VNum n /\
         JS.num_leb n (JS.num 100) = true /\
         (NewsService.th_pageSize args = None -> n = JS.num 20)) /\
    (forall args,
       JS.truthy (NewsService.sn_query args) = true ->
       exists req n,
         Eff.requests (Eff.run (NewsService.searchNews apiKey args) net).2 = [req] /\
         Vocabulary.page_size req = JS.VNum n /\
         JS.num_leb n (JS.num 100) = true /\
         (NewsService.sn_pageSize args = None -> n = JS.num 20)) /\
    (forall args,
       JS.truthy (NewsService.cn_companyName args) = true ->
       exists req n,
         Eff.requests (Eff.run (NewsService.getCompanyNews apiKey args) net).2 = [req] /\
         Vocabulary.page_size req = JS.VNum n /\
         JS.num_leb n (JS.num 100) = true /\
         (NewsService.cn_pageSize args = None -> n = JS.num 10)) /\
    (forall args,
       JS.truthy (NewsService.sn_query args) = false ->
       Eff.requests (Eff.run (NewsService.searchNews apiKey args) net).2 = []) /\
    (forall args,
       JS.truthy (NewsService.cn_companyName args) = false ->
       Eff.requests (Eff.run (NewsService.getCompanyNews apiKey args) net).2 = []).
Proof.
  intros apiKey net. split; [|split; [|split; [|split]]].
  - intros args.
    destruct (QueryFacts.getTopHeadlines_fetch apiKey args) as [req [Hf Hp]].
    exists req. eexists. rewrite Hf, QueryFacts.fetch_requests.
    split; [reflexivity|]. split; [exact Hp|].
    split; [apply QueryFacts.page_size_capped|]. intros ->. reflexivity.
  - intros args Hq.
    destruct (QueryFacts.searchNews_fetch apiKey args Hq) as [req [Hf Hp]].
    exists req. eexists. rewrite Hf, QueryFacts.fetch_requests.
    split; [reflexivity|]. split; [exact Hp|].
    split; [apply QueryFacts.page_size_capped|]. intros ->. reflexivity.
  - intros args Hq.
    destruct (QueryFacts.getCompanyNews_fetch apiKey args Hq) as [req [Hf Hp]].
    exists req. eexists. rewrite Hf, QueryFacts.fetch_requests.
    split; [reflexivity|]. split; [exact Hp|].
    split; [apply QueryFacts.page_size_capped|]. intros ->. reflexivity.
  - intros args Hq. rewrite QueryFacts.searchNews_guard by exact Hq. reflexivity.
  - intros args Hq. rewrite QueryFacts.getCompanyNews_guard by exact Hq. reflexivity.
Qed.

Lemma C6_witness :
  exists req,
    Eff.requests
      (Eff.run (NewsService.getCompanyNews "key"
                  {| NewsService.cn_companyName := JS.VStr "Apple";
                     NewsService.cn_dateFrom := JS.VStr "2026-01-01";
                     NewsService.cn_dateTo := JS.VUndef;
                     NewsService.cn_pageSize := None |})
               (fun _ _ => Eff.NetworkError)).2 = [req] /\
    Vocabulary.page_size req = JS.VNum (JS.num 10).
Proof.
  destruct (C6_page_size_capped_with_defaults "key" (fun _ _ => Eff.NetworkError))
    as [_ [_ [Hcompany _]]].
  destruct (Hcompany
              {| NewsService.cn_companyName := JS.VStr "Apple";
                 NewsService.cn_dateFrom := JS.VStr "2026-01-01";
                 NewsService.cn_dateTo := JS.VUndef;
                 NewsService.cn_pageSize := None |} eq_refl)
    as [req [n [Hreq [Hp [_ Hdefault]]]]].
  exists req. split; [exact Hreq|].
  etransitivity; [exact Hp|]. f_equal. apply Hdefault. reflexivity.
Defined.

(** C10. When the query of [searchNews], or the company name of
    [getCompanyNews], is absent or empty (falsy), the call answers
    [{ articles: [], totalResults: 0 }] with an empty trace: no outbound
    request is sent and nothing is logged.  The routes [/api/search] and
    [/api/company] therefore answer a request without (or with an empty) [q],
    respectively [name], with status 200 and that empty result. *)
Theorem C10_empty_query_short_circuits :
  forall (apiKey : string) (net : Eff.network),
    (forall args,
       JS.truthy (NewsService.sn_query args) = false ->
       Eff.run (NewsService.searchNews apiKey args) net = (inr NewsService.empty_result, [])) /\
    (forall args,
       JS.truthy (NewsService.cn_companyName args) = false ->
       Eff.run (NewsService.getCompanyNews apiKey args) net = (inr NewsService.empty_result, [])) /\
    (forall query : gmap string JS.value,
       JS.truthy (Server.param query "q") = false ->
       Eff.run (Server.get_search apiKey query) net =
         (inr {| Server.status := 200;
                 Server.body := Server.SearchBody NewsService.empty_result |}, [])) /\
    (forall query : gmap string JS.value,
       JS.truthy (Server.param query "name") = false ->
       Eff.run (Server.get_company apiKey query) net =
         (inr {| Server.status := 200;
                 Server.body := Server.SearchBody NewsService.empty_result |}, [])).
Proof.
  intros apiKey net. repeat split.
  - intros args Hq. now apply QueryFacts.searchNews_guard.
  - intros args Hq. now apply QueryFacts.getCompanyNews_guard.
  - intros query Hq. unfold Server.get_search, Eff.run, mbind, Eff.M_bind, Eff.bind.
    pose proof (QueryFacts.searchNews_guard apiKey
      {| NewsService.sn_query := Server.param query "q";
         NewsService.sn_sortBy := JS.VUndef; NewsService.sn_language := JS.VUndef;
         NewsService.sn_pageSize := None |} net Hq) as Hrun.
    unfold Eff.run in Hrun. rewrite Hrun. reflexivity.
  - intros query Hq. unfold Server.get_company, Eff.run, mbind, Eff.M_bind, Eff.bind.
    pose proof (QueryFacts.getCompanyNews_guard apiKey
      {| NewsService.cn_companyName := Server.param query "name";
         NewsService.cn_dateFrom := JS.VUndef; NewsService.cn_dateTo := JS.VUndef;
         NewsService.cn_pageSize := None |} net Hq) as Hrun.
    unfold Eff.run in Hrun. rewrite Hrun. reflexivity.
Qed.

Lemma C10_witness :
  Eff.run (Server.get_search "key" ∅) (fun _ _ => Eff.NetworkError) =
    (inr {| Server.status := 200;
            Server.body := Server.SearchBody NewsService.empty_result |}, []) /\
  Eff.run (Server.get_company "key" {[ "name" := JS.VStr "" ]}) (fun _ _ => Eff.NetworkError) =
    (inr {| Server.status := 200;
            Server.body := Server.SearchBody NewsService.empty_result |}, []).
Proof.
  destruct (C10_empty_query_short_circuits "key" (fun _ _ => Eff.NetworkError))
    as [_ [_ [Hsearch Hcompany]]].
  split; [apply Hsearch | apply Hcompany]; vm_compute; reflexivity.
Defined.

Module RouteFacts.
Import JS Eff NewsService Server.

Lemma param_missing (query : gmap string value) name :
  query !! name = None -> param query name = VUndef.
Proof. unfold param. now intros ->. Qed.

End RouteFacts.

(** C4 does not hold as stated: [/api/search] without [q] is answered
    with status 200, not 400. *)
Lemma C4_counterexample :
  ~ (forall (route : Server.Route) (query : gmap string JS.value) (net : Eff.network),
       (exists name, In name (Server.required route) /\ query !! name = None) ->
       exists resp tr,
         Eff.run (Server.handle (H := ExampleHost.host) "key" route query) net = (inr resp, tr) /\
         Server.status resp = 400%nat).
Proof.
  intros H.
  destruct (H Server.ApiSearch ∅ (fun _ _ => Eff.NetworkError)) as [resp [tr [Hrun Hstatus]]].
  - exists "q". split; [left; reflexivity | reflexivity].
  - vm_compute in Hrun. injection Hrun as <- _. discriminate Hstatus.
Qed.

(** C4, amended.  A request to [/api/insights/industry-pulse] without
    [industry], or to [/api/insights/compare-companies] without [companyA] or
    without [companyB], is answered with status 400 and an error body, and no
    outbound request is sent; a request to [/api/search] without [q], or to
    [/api/company] without [name], is answered with status 200 and the empty
    result. *)
Theorem C4_missing_parameter_responses :
  forall (H : Host) (apiKey : string) (net : Eff.network) (query : gmap string JS.value),
    (query !! "industry" = None ->
     Eff.run (Server.handle apiKey Server.ApiIndustryPulse query) net =
       (inr {| Server.status := 400;
               Server.body := Server.ErrorBody "industry is required" |}, [])) /\
    (query !! "companyA" = None \/ query !! "companyB" = None ->
     Eff.run (Server.handle apiKey Server.ApiCompareCompanies query) net =
       (inr {| Server.status := 400;
               Server.body := Server.ErrorBody "companyA and companyB are required" |}, [])) /\
    (query !! "q" = None ->
     Eff.run (Server.handle apiKey Server.ApiSearch query) net =
       (inr {| Server.status := 200;
               Server.body := Server.SearchBody NewsService.empty_result |}, [])) /\
    (query !! "name" = None ->
     Eff.run (Server.handle apiKey Server.ApiCompany query) net =
       (inr {| Server.status := 200;
               Server.body := Server.SearchBody NewsService.empty_result |}, [])).
Proof.
  intros H apiKey net query. repeat split.
  - intros Hq. cbn [Server.handle]. unfold Server.get_industry_pulse.
    rewrite (RouteFacts.param_missing _ _ Hq). reflexivity.
  - intros Hq. cbn [Server.handle]. unfold Server.get_compare_companies.
    destruct Hq as [Hq|Hq]; rewrite (RouteFacts.param_missing _ _ Hq).
    + reflexivity.
    + cbn [JS.truthy negb orb JS.is_string]. rewrite !orb_true_r. reflexivity.
  - intros Hq. cbn [Server.handle]. unfold Server.get_search.
    rewrite (RouteFacts.param_missing _ _ Hq). reflexivity.
  - intros Hq. cbn [Server.handle]. unfold Server.get_company.
    rewrite (RouteFacts.param_missing _ _ Hq). reflexivity.
Qed.

Lemma C4_witness :
  Eff.run (Server.handle (H := ExampleHost.host) "key" Server.ApiIndustryPulse
             {[ "days" := JS.VStr "100" ]}) (fun _ _ => Eff.NetworkError) =
    (inr {| Server.status := 400;
            Server.body := Server.ErrorBody "industry is required" |}, []) /\
  Eff.run (Server.handle (H := ExampleHost.host) "key" Server.ApiCompareCompanies
             {[ "companyA" := JS.VStr "Apple" ]}) (fun _ _ => Eff.NetworkError) =
    (inr {| Server.status := 400;
            Server.body := Server.ErrorBody "companyA and companyB are required" |}, []) /\
  Eff.run (Server.handle (H := ExampleHost.host) "key" Server.ApiSearch
             {[ "days" := JS.VStr "100" ]}) (fun _ _ => Eff.NetworkError) =
    (inr {| Server.status := 200;
            Server.body := Server.SearchBody NewsService.empty_result |}, []) /\
  Eff.run (Server.handle (H := ExampleHost.host) "key" Server.ApiCompany ∅)
          (fun _ _ => Eff.NetworkError) =
    (inr {| Server.status := 200;
            Server.body := Server.SearchBody NewsService.empty_result |}, []).
Proof.
  split; [|split; [|split]].
  - apply (C4_missing_parameter_responses ExampleHost.host "key" (fun _ _ => Eff.NetworkError)
             {[ "days" := JS.VStr "100" ]}).
    vm_compute. reflexivity.
  - apply (C4_missing_parameter_responses ExampleHost.host "key" (fun _ _ => Eff.NetworkError)
             {[ "companyA" := JS.VStr "Apple" ]}).
    right. vm_compute. reflexivity.
  - apply (C4_missing_parameter_responses ExampleHost.host "key" (fun _ _ => Eff.NetworkError)
             {[ "days" := JS.VStr "100" ]}).
    vm_compute. reflexivity.
  - apply (C4_missing_parameter_responses ExampleHost.host "key" (fun _ _ => Eff.NetworkError) ∅).
    vm_compute. reflexivity.
Defined.

Module WindowFacts.
Import JS Eff NewsService Vocabulary WrapperFacts.

(** [Math.min(Math.max(days || d, lo), hi)] is a number between [lo] and
    [hi], whatever [days] is. *)
Lemma clamp_bounds (days : option number) (d lo hi : Z) :
  (lo <= hi)%Z ->
  exists q,
    Math_min (Math_max (num_or days (num d)) (num lo)) (num hi) = Finite q /\
    (inject_Z lo <= q)%Q /\ (q <= inject_Z hi)%Q.
Proof.
  intros Hle.
  assert (Hz : (inject_Z lo <= inject_Z hi)%Q) by (rewrite <- Zle_Qle; exact Hle).
  assert (H : forall x, x <> NaN ->
            exists q, Math_min (Math_max x (num lo)) (num hi) = Finite q /\
                      (inject_Z lo <= q)%Q /\ (q <= inject_Z hi)%Q).
  { intros [| |x|] Hx; [congruence| | |].
    - exists (inject_Z lo). cbn.
      destruct (Qle_bool (inject_Z lo) (inject_Z hi)) eqn:E.
      + repeat split; [apply Qle_refl | exact Hz].
      + apply Qle_bool_iff in Hz. congruence.
    - cbn. destruct (Qle_bool x (inject_Z lo)) eqn:E1; cbn.
      + exists (inject_Z lo).
        destruct (Qle_bool (inject_Z lo) (inject_Z hi)) eqn:E.
        * repeat split; [apply Qle_refl | exact Hz].
        * apply Qle_bool_iff in Hz. congruence.
      + assert (Hx' : (inject_Z lo <= x)%Q).
        { destruct (Qlt_le_dec x (inject_Z lo)) as [Hlt|Hge]; [|exact Hge].
          apply Qlt_le_weak, Qle_bool_iff in Hlt. congruence. }
        destruct (Qle_bool x (inject_Z hi)) eqn:E2.
        * exists x. repeat split; [exact Hx' | now apply Qle_bool_iff].
        * exists (inject_Z hi). repeat split; [exact Hz | apply Qle_refl].
    - exists (inject_Z hi). cbn. repeat split; [exact Hz | apply Qle_refl]. }
  apply H. destruct days as [[| |q|]|]; cbn; try discriminate.
  destruct (negb (Qeq_bool q 0)); discriminate.
Qed.

(** The windows of the two insight endpoints. *)
Lemma pulse_window_in_range (days : option number) :
  exists q,
    Math_min (Math_max (num_or days (num 7)) (num 1)) (num 14) = Finite q /\
    (1 <= q)%Q /\ (q <= 14)%Q.
Proof. apply (clamp_bounds days 7 1 14). lia. Qed.

Lemma movers_window_in_range (days : option number) :
  exists q,
    Math_min (Math_max (num_or days (num 3)) (num 1)) (num 7) = Finite q /\
    (1 <= q)%Q /\ (q <= 7)%Q.
Proof. apply (clamp_bounds days 3 1 7). lia. Qed.

(** The two ways [getIndustryPulse] ends: the answer is read and the window
    returned is the clamped one, the one of the request; or the [catch]
    answers, with the days as they were asked for. *)
Lemma getIndustryPulse_window `{Host} key args net :
  let windowDays :=
    Math_min (Math_max (num_or (ip_days args) (num 7)) (num 1)) (num 14) in
  exists r req,
    assoc "from" (req_params req) = VStr (getDateDaysAgo windowDays) /\
    ((run (getIndustryPulse key args) net = (inr r, [HttpGet req]) /\
      pulse_windowDays r = windowDays) \/
     (exists e,
        run (getIndustryPulse key args) net =
          (inr r, [HttpGet req; ConsoleError "error building industry pulse:" e]) /\
        pulse_windowDays r = num_or (ip_days args) (num 7))).
Proof.
  intros windowDays. unfold getIndustryPulse. fold windowDays.
  set (req := {| req_url := _ |}).
  unfold_eff. change (List.length (requests [])) with 0%nat.
  destruct (settle (net 0%nat req)) as [e|data];
    [eexists _, req; split; [reflexivity|]; right; eexists; split; reflexivity|].
  destruct (get_prop data "articles") as [raw|];
    [|eexists _, req; split; [reflexivity|]; right; eexists; split; reflexivity].
  destruct (normalizeArticles raw) as [arts|];
    [|eexists _, req; split; [reflexivity|]; right; eexists; split; reflexivity].
  destruct (tally arts [] []) as [counts|];
    [|eexists _, req; split; [reflexivity|]; right; eexists; split; reflexivity].
  destruct (get_prop data "totalResults") as [total|];
    [|eexists _, req; split; [reflexivity|]; right; eexists; split; reflexivity].
  eexists _, req. split; [reflexivity|]. left. split; reflexivity.
Qed.

Lemma getMarketMovingEvents_window `{Host} key args net :
  let windowDays :=
    Math_min (Math_max (num_or (mm_days args) (num 3)) (num 1)) (num 7) in
  exists r req,
    assoc "from" (req_params req) = VStr (getDateDaysAgo windowDays) /\
    ((run (getMarketMovingEvents key args) net = (inr r, [HttpGet req]) /\
      mov_windowDays r = windowDays) \/
     (exists e,
        run (getMarketMovingEvents key args) net =
          (inr r, [HttpGet req; ConsoleError "error fetching market moving events:" e]) /\
        mov_windowDays r = num_or (mm_days args) (num 3))).
Proof.
  intros windowDays. unfold getMarketMovingEvents. fold windowDays.
  set (req := {| req_url := _ |}).
  unfold_eff. change (List.length (requests [])) with 0%nat.
  destruct (settle (net 0%nat req)) as [e|data];
    [eexists _, req; split; [reflexivity|]; right; eexists; split; reflexivity|].
  destruct (get_prop data "articles") as [raw|];
    [|eexists _, req; split; [reflexivity|]; right; eexists; split; reflexivity].
  destruct (normalizeArticles raw) as [arts|];
    [|eexists _, req; split; [reflexivity|]; right; eexists; split; reflexivity].
  destruct (get_prop data "totalResults") as [total|];
    [|eexists _, req; split; [reflexivity|]; right; eexists; split; reflexivity].
  eexists _, req. split; [reflexivity|]. left. split; reflexivity.
Qed.

End WindowFacts.

(** C3, the code at the failing input.  With the News API unreachable, an
    industry pulse asked for with [days = 100] sends the same request as one
    asked for with [days = 14] (window of 14 days), but the answer carries
    [windowDays: 100], not 14; market movers asked for with [days = 100]
    likewise answer [windowDays: 100] after a request over 7 days. *)
Lemma C3_catch_returns_requested_days :
  let down : Eff.network := fun _ _ => Eff.NetworkError in
  let pulse days :=
    Eff.run (NewsService.getIndustryPulse (H := ExampleHost.host) "key"
               {| NewsService.ip_industry := "fintech";
                  NewsService.ip_days := Some (JS.num days);
                  NewsService.ip_language := JS.VUndef |}) down in
  let movers days :=
    Eff.run (NewsService.getMarketMovingEvents (H := ExampleHost.host) "key"
               {| NewsService.mm_query := JS.VUndef;
                  NewsService.mm_days := Some (JS.num days) |}) down in
  (exists r100 r14 tr,
     pulse 100%Z = (inr r100, tr) /\ pulse 14%Z = (inr r14, tr) /\
     List.map (fun req => JS.assoc "from" (Eff.req_params req)) (Eff.requests tr)
       = [JS.VStr "now-14d"] /\
     NewsService.pulse_windowDays r100 = JS.num 100 /\
     NewsService.pulse_windowDays r14 = JS.num 14) /\
  (exists r100 tr,
     movers 100%Z = (inr r100, tr) /\
     List.map (fun req => JS.assoc "from" (Eff.req_params req)) (Eff.requests tr)
       = [JS.VStr "now-7d"] /\
     NewsService.mov_windowDays r100 = JS.num 100).
Proof.
  split.
  - eexists _, _, _.
    split; [vm_compute; reflexivity|]. split; [vm_compute; reflexivity|].
    split; [vm_compute; reflexivity|]. split; reflexivity.
  - eexists _, _.
    split; [vm_compute; reflexivity|]. split; [vm_compute; reflexivity|]. reflexivity.
Qed.

Module CoverageFacts.
Import JS Eff NewsService Vocabulary WrapperFacts.

Lemma read_result_Some data r :
  read_result data = Some r ->
  exists raw,
    get_prop data "articles" = Some raw /\
    normalizeArticles raw = Some (articles r) /\
    get_prop data "totalResults" = Some (totalResults r).
Proof.
  unfold read_result. intros Hr.
  destruct (get_prop data "articles") as [raw|]; [|discriminate Hr].
  cbn in Hr. destruct (normalizeArticles raw) as [arts|] eqn:En; [|discriminate Hr].
  cbn in Hr. destruct (get_prop data "totalResults") as [total|]; [|discriminate Hr].
  cbn in Hr. injection Hr as <-. exists raw. repeat split. exact En.
Qed.



(** The primitive-free reading of [read_result]. *)
Lemma read_result_eq data :
  read_result data =
  match get_prop data "articles" with
  | Some raw =>
      match normalizeArticles raw with
      | Some normalized =>
          match get_prop data "totalResults" with
          | Some total => Some {| articles := normalized; totalResults := total |}
          | None => None
          end
      | None => None
      end
  | None => None
  end.
Proof.
  unfold read_result. destruct (get_prop data "articles") as [raw|]; [|reflexivity].
  cbn. destruct (normalizeArticles raw) as [normalized|]; [|reflexivity].
  cbn. destruct (get_prop data "totalResults"); reflexivity.
Qed.



(** A comparison, by the way its two requests settle and by what their
    payloads hold: the answer built in the [try] when both payloads can be
    read and the totals subtracted, the answer of the [catch] otherwise. *)
Lemma compareCompanyCoverage_run `{Host} key args net :
  let windowDays :=
    Math_min (Math_max (num_or (cc_days args) (num 7)) (num 1)) (num 14) in
  let query (company : string) :=
    {| req_url := NEWS_API_BASE_URL ++ "/everything";
       req_params := [
         ("apiKey", VStr key);
         ("q", VStr company);
         ("from", VStr (getDateDaysAgo windowDays));
         ("sortBy", VStr "publishedAt");
         ("language", VStr "en");
         ("pageSize", VNum (num 10))
       ] |} in
  let reqA := query (cc_companyA args) in
  let reqB := query (cc_companyB args) in
  let caught :=
    {| cov_windowDays := num_or (cc_days args) (num 7);
       cov_companyA := {| side_name := cc_companyA args;
                          side_totalResults := VNum (num 0);
                          side_recentHeadlines := [] |};
       cov_companyB := {| side_name := cc_companyB args;
                          side_totalResults := VNum (num 0);
                          side_recentHeadlines := [] |};
       cov_deltaCoverage := num 0 |} in
  exists log,
    (log = [] \/ exists e, log = [ConsoleError "error comparing company coverage:" e]) /\
    run (compareCompanyCoverage key args) net =
      (inr match settle (net 0%nat reqA), settle (net 1%nat reqB) with
           | inr aData, inr bData =>
               match read_result aData, read_result bData with
               | Some ra, Some rb =>
                   match Coerce.minus (totalResults ra) (totalResults rb) with
                   | Some delta =>
                       {| cov_windowDays := windowDays;
                          cov_companyA :=
                            {| side_name := cc_companyA args;
                               side_totalResults := totalResults ra;
                               side_recentHeadlines :=
                                 List.map headline (take 3 (articles ra)) |};
                          cov_companyB :=
                            {| side_name := cc_companyB args;
                               side_totalResults := totalResults rb;
                               side_recentHeadlines :=
                                 List.map headline (take 3 (articles rb)) |};
                          cov_deltaCoverage := delta |}
                   | None => caught
                   end
               | _, _ => caught
               end
           | _, _ => caught
           end,
       HttpGet reqA :: HttpGet reqB :: log).
Proof.
  intros windowDays query reqA reqB caught.
  unfold compareCompanyCoverage. fold windowDays.
  change {| req_url := NEWS_API_BASE_URL ++ "/everything";
            req_params := [("apiKey", VStr key); ("q", VStr (cc_companyA args));
                           ("from", VStr (getDateDaysAgo windowDays));
                           ("sortBy", VStr "publishedAt"); ("language", VStr "en");
                           ("pageSize", VNum (num 10))] |} with reqA.
  change {| req_url := NEWS_API_BASE_URL ++ "/everything";
            req_params := [("apiKey", VStr key); ("q", VStr (cc_companyB args));
                           ("from", VStr (getDateDaysAgo windowDays));
                           ("sortBy", VStr "publishedAt"); ("language", VStr "en");
                           ("pageSize", VNum (num 10))] |} with reqB.
  unfold await_all. unfold_eff.
  change (List.length (requests [])) with 0%nat.
  change (List.length (requests ([] ++ [HttpGet reqA]))) with 1%nat.
  change (([] ++ [HttpGet reqA]) ++ [HttpGet reqB]) with [HttpGet reqA; HttpGet reqB].
  destruct (settle (net 0%nat reqA)) as [eA|aData];
    destruct (settle (net 1%nat reqB)) as [eB|bData]; cbv beta iota;
    try (eexists; split; [right; eexists; reflexivity | reflexivity]).
  rewrite !read_result_eq.
  destruct (get_prop aData "articles") as [aRaw|]; cbv beta iota;
    [|eexists; split; [right; eexists; reflexivity | reflexivity]].
  destruct (normalizeArticles aRaw) as [aArticles|]; cbv beta iota;
    [|eexists; split; [right; eexists; reflexivity | reflexivity]].
  destruct (get_prop bData "articles") as [bRaw|]; cbv beta iota;
    [|destruct (get_prop aData "totalResults");
      eexists; (split; [right; eexists; reflexivity | reflexivity])].
  destruct (normalizeArticles bRaw) as [bArticles|]; cbv beta iota;
    [|destruct (get_prop aData "totalResults");
      eexists; (split; [right; eexists; reflexivity | reflexivity])].
  destruct (get_prop aData "totalResults") as [aTotal|]; cbv beta iota;
    [|eexists; split; [right; eexists; reflexivity | reflexivity]].
  destruct (get_prop bData "totalResults") as [bTotal|]; cbv beta iota;
    [|eexists; split; [right; eexists; reflexivity | reflexivity]].
  cbn [articles totalResults].
  destruct (Coerce.minus aTotal bTotal) as [delta|]; cbv beta iota.
  - exists []. split; [left; reflexivity | reflexivity].
  - eexists. split; [right; eexists; reflexivity | reflexivity].
Qed.

End CoverageFacts.



Module ChatFacts.
Import JS Eff ChatService Vocabulary.

Lemma history_lookup uid (conversations : gmap string ConversationContext) :
  history uid conversations =
  match conversations !! uid with
  | Some conversation => messages conversation
  | None => []
  end.
Proof.
  unfold history, getConversationHistory, getOrCreateConversation.
  destruct (conversations !! uid); reflexivity.
Qed.

Lemma history_insert uid conversation (conversations : gmap string ConversationContext) :
  history uid (<[uid := conversation]> conversations) = messages conversation.
Proof. rewrite history_lookup, lookup_insert_eq. reflexivity. Qed.

Lemma history_insert_ne uid uid' conversation (conversations : gmap string ConversationContext) :
  uid <> uid' ->
  history uid' (<[uid := conversation]> conversations) = history uid' conversations.
Proof. intros Hne. rewrite !history_lookup, lookup_insert_ne by exact Hne. reflexivity. Qed.


(** The guarded truncation is the truncation: a list of at most 20 messages
    is its own last 20. *)
Lemma truncate_last20 msgs :
  (if (20 <? List.length msgs)%nat then last20 msgs else msgs) = last20 msgs.
Proof.
  destruct (20 <? List.length msgs)%nat eqn:E; [reflexivity|].
  apply Nat.ltb_ge in E. unfold last20.
  replace (List.length msgs - 20)%nat with 0%nat by lia. reflexivity.
Qed.

(** The conversation object that a call works on holds the stored history. *)
Lemma getOrCreate_messages uid (conversations : gmap string ConversationContext) :
  messages (getOrCreateConversation uid conversations).1 = history uid conversations.
Proof.
  rewrite history_lookup. unfold getOrCreateConversation.
  destruct (conversations !! uid); reflexivity.
Qed.

(** One call, by the way the request to the agent settles. *)
Lemma processMessage_settled up t0 t1 uid msg (conversations : gmap string ConversationContext) :
  let asked := {| role := user; content := VStr msg; timestamp := t0 |} in
  exists reply conversations' log,
    processMessage up t0 t1 uid msg conversations = (reply, conversations', log) /\
    (forall uid', uid <> uid' -> history uid' conversations' = history uid' conversations) /\
    match settle up with
    | inr data =>
        reply = assistantResponse data /\
        history uid conversations' =
          last20 (history uid conversations ++
                  [asked; {| role := assistant; content := reply; timestamp := t1 |}])
    | inl _ =>
        reply = VStr apology /\
        history uid conversations' = history uid conversations ++ [asked]
    end.
Proof.
  intros asked. unfold processMessage.
  pose proof (getOrCreate_messages uid conversations) as Hmsgs.
  assert (Hother : forall uid', uid <> uid' ->
            history uid' (getOrCreateConversation uid conversations).2
            = history uid' conversations).
  { intros uid' Hne. unfold getOrCreateConversation.
    destruct (conversations !! uid); [reflexivity|].
    cbn [snd]. now apply history_insert_ne. }
  destruct (getOrCreateConversation uid conversations) as [conversation stored].
  cbn [fst snd] in Hmsgs, Hother.
  destruct (settle up) as [e|data].
  - eexists _, _, _. split; [reflexivity|]. split.
    + intros uid' Hne. rewrite history_insert_ne by exact Hne. now apply Hother.
    + split; [reflexivity|]. rewrite history_insert. cbn [messages].
      rewrite Hmsgs. reflexivity.
  - eexists _, _, _. split; [reflexivity|]. split.
    + intros uid' Hne. rewrite history_insert_ne by exact Hne. now apply Hother.
    + split; [reflexivity|]. rewrite history_insert. cbn [messages].
      rewrite truncate_last20, Hmsgs, <- app_assoc. reflexivity.
Qed.


End ChatFacts.




(** * Further properties *)

Module StoreFacts.
Import JS Eff ChatService Vocabulary Observations.



End StoreFacts.

Module StoreFacts2.
Import JS Eff ChatService Vocabulary Observations.

Lemma history_delete uid (conversations : gmap string ConversationContext) :
  history uid (clearConversation uid conversations) = [].
Proof.
  unfold clearConversation. rewrite ChatFacts.history_lookup, lookup_delete_eq. reflexivity.
Qed.

Lemma history_delete_ne uid uid' (conversations : gmap string ConversationContext) :
  uid <> uid' ->
  history uid' (clearConversation uid conversations) = history uid' conversations.
Proof.
  intros Hne. unfold clearConversation.
  rewrite !ChatFacts.history_lookup, lookup_delete_ne by exact Hne. reflexivity.
Qed.

Lemma history_after_read uid uid' (conversations : gmap string ConversationContext) :
  history uid' (getConversationHistory uid conversations).2 = history uid' conversations.
Proof.
  unfold getConversationHistory, getOrCreateConversation.
  destruct (conversations !! uid) eqn:E; cbn [snd]; [reflexivity|].
  destruct (decide (uid = uid')) as [<-|Hne].
  - rewrite ChatFacts.history_insert, ChatFacts.history_lookup, E. reflexivity.
  - now apply ChatFacts.history_insert_ne.
Qed.


End StoreFacts2.

(** X1. The conversation store keeps users apart: a call of
    [processMessage], answered or not, and a [clearConversation] for one user
    leave the history of every other user as it was; reading a history with
    [getConversationHistory] changes no history at all, the reader's
    included (it only registers an unknown user with an empty
    conversation). *)
Theorem X1_conversations_are_isolated :
  forall (uid uid' : string) (conversations : gmap string ChatService.ConversationContext),
    (forall up t0 t1 msg,
       uid <> uid' ->
       ChatService.history uid'
         (ChatService.processMessage up t0 t1 uid msg conversations).1.2
       = ChatService.history uid' conversations) /\
    (uid <> uid' ->
     ChatService.history uid' (ChatService.clearConversation uid conversations)
     = ChatService.history uid' conversations) /\
    ChatService.history uid' (ChatService.getConversationHistory uid conversations).2
      = ChatService.history uid' conversations.
Proof.
  intros uid uid' conversations. repeat split.
  - intros up t0 t1 msg Hne.
    destruct (ChatFacts.processMessage_settled up t0 t1 uid msg conversations)
      as [reply [conversations' [log [-> [Hother _]]]]].
    cbn [fst snd]. now apply Hother.
  - apply StoreFacts2.history_delete_ne.
  - apply StoreFacts2.history_after_read.
Qed.

Lemma X1_witness :
  let alice :=
    {| ChatService.call_upstream := Eff.HttpResponse 200 (JS.VObj [("response", JS.VStr "hello")]);
       ChatService.call_t0 := "t0"; ChatService.call_t1 := "t1";
       ChatService.call_userId := "alice"; ChatService.call_message := "hi" |} in
  let store := ChatService.run_calls [alice] ∅ in
  ChatService.history "alice"
    (ChatService.processMessage Eff.NetworkError "t2" "t3" "bob" "anyone?" store).1.2
    = ChatService.history "alice" store /\
  ChatService.history "alice" (ChatService.clearConversation "bob" store)
    = ChatService.history "alice" store.
Proof.
  cbv zeta. split.
  - apply (X1_conversations_are_isolated "bob" "alice"). discriminate.
  - apply (X1_conversations_are_isolated "bob" "alice"). discriminate.
Defined.

(** X2. Clearing forgets: after [clearConversation] the user's history is
    empty, and the next answered call of that user leaves exactly its own two
    messages, the user's and the assistant's. *)
Theorem X2_clear_then_start_over :
  forall (uid : string) (conversations : gmap string ChatService.ConversationContext),
    ChatService.history uid (ChatService.clearConversation uid conversations) = [] /\
    (forall c,
       Vocabulary.answered c ->
       ChatService.call_userId c = uid ->
       ChatService.history uid
         (ChatService.step (ChatService.clearConversation uid conversations) c)
       = Observations.exchange c /\
       List.length (Observations.exchange c) = 2%nat).
Proof.
  intros uid conversations. split; [apply StoreFacts2.history_delete|].
  intros c [data Hdata] <-. unfold ChatService.step.
  destruct (ChatFacts.processMessage_settled
              (ChatService.call_upstream c) (ChatService.call_t0 c) (ChatService.call_t1 c)
              (ChatService.call_userId c) (ChatService.call_message c)
              (ChatService.clearConversation (ChatService.call_userId c) conversations))
    as [reply [conversations' [log [-> [_ Hhist]]]]].
  cbn [fst snd]. rewrite Hdata in Hhist. destruct Hhist as [-> ->].
  rewrite StoreFacts2.history_delete. unfold Observations.exchange. rewrite Hdata.
  split; reflexivity.
Qed.

Lemma X2_witness :
  let c :=
    {| ChatService.call_upstream := Eff.HttpResponse 200 (JS.VObj [("text", JS.VStr "hello")]);
       ChatService.call_t0 := "t0"; ChatService.call_t1 := "t1";
       ChatService.call_userId := "alice"; ChatService.call_message := "hi" |} in
  ChatService.history "alice"
    (ChatService.step
       (ChatService.clearConversation "alice" (ChatService.run_calls (replicate 15 c) ∅)) c)
  = [ {| ChatService.role := ChatService.user; ChatService.content := JS.VStr "hi";
         ChatService.timestamp := "t0" |};
      {| ChatService.role := ChatService.assistant; ChatService.content := JS.VStr "hello";
         ChatService.timestamp := "t1" |} ].
Proof.
  cbv zeta.
  match goal with
  | |- ChatService.history _
         (ChatService.step (ChatService.clearConversation _ ?s) ?c) = _ =>
      destruct (proj2 (X2_clear_then_start_over "alice" s) c) as [H _];
        [eexists; reflexivity | reflexivity | rewrite H]
  end.
  reflexivity.
Defined.



(** X4. The reply read off an answer of the agent is never missing: it is a
    truthy value, or the empty string, and it is the empty string only when
    the answer's [response] field is the empty string itself; an answer that
    carries none of the fields gives the default text. *)
Theorem X4_reply_never_missing :
  forall data : JS.value,
    (JS.truthy (ChatService.assistantResponse data) = true \/
     (ChatService.assistantResponse data = JS.VStr "" /\
      JS.get_prop_opt data "response" = JS.VStr "")) /\
    (JS.get_prop_opt data "response" = JS.VUndef ->
     JS.get_prop_opt data "message" = JS.VUndef ->
     JS.get_prop_opt data "text" = JS.VUndef ->
     JS.get_prop_opt data "data" = JS.VUndef ->
     ChatService.assistantResponse data = JS.VStr "no response received from agent.").
Proof.
  intros data. unfold ChatService.assistantResponse.
  assert (Hdata : JS.truthy data = false /\ JS.get_prop_opt data "response" = JS.VUndef
                  /\ JS.or_else data (JS.VObj []) = JS.VObj []
                  \/ JS.or_else data (JS.VObj []) = data).
  { unfold JS.or_else. destruct (JS.truthy data) eqn:E; [now right|].
    left. split; [reflexivity|]. split; [|reflexivity].
    destruct data; try reflexivity. discriminate E. }
  split.
  - destruct Hdata as [[_ [_ ->]] | ->]; [left; reflexivity|].
    destruct (JS.get_prop_opt data "response") as [| | | |s| |] eqn:Er;
      cbn [JS.is_string].
    5: { destruct s as [|c s']; [right; split; reflexivity | left; reflexivity]. }
    all: left; unfold JS.or_else, JS.and_then;
      repeat match goal with
             | |- context [if JS.truthy ?x then _ else _] =>
                 let E := fresh "E" in destruct (JS.truthy x) eqn:E
             end; try assumption; reflexivity.
  - intros Hr Hm Ht Hd.
    destruct Hdata as [[_ [_ ->]] | ->]; [reflexivity|].
    rewrite Hr, Hm, Ht, Hd. reflexivity.
Qed.

Lemma X4_witness :
  ChatService.assistantResponse (JS.VObj [("status", JS.VStr "done")])
  = JS.VStr "no response received from agent.".
Proof.
  apply (proj2 (X4_reply_never_missing (JS.VObj [("status", JS.VStr "done")]))); reflexivity.
Defined.

Module TallyFacts.
Import JS NewsService Observations.

(** *** The sort *)

Lemma insert_desc_perm {K} (x : K * nat) l : Permutation (insert_desc x l) (x :: l).
Proof.
  induction l as [|y l IH]; cbn [insert_desc]; [reflexivity|].
  destruct (snd x <? snd y)%nat; [|reflexivity].
  rewrite IH. apply perm_swap.
Qed.

Lemma sort_desc_perm {K} (l : list (K * nat)) : Permutation (sort_desc l) l.
Proof.
  induction l as [|x l IH]; [reflexivity|].
  change (sort_desc (x :: l)) with (insert_desc x (sort_desc l)).
  rewrite insert_desc_perm, IH. reflexivity.
Qed.

Lemma insert_desc_sorted {K} (x : K * nat) l :
  descending l -> descending (insert_desc x l).
Proof.
  unfold descending. induction 1 as [|y l Hl IH Hy]; cbn [insert_desc].
  - repeat constructor.
  - destruct (snd x <? snd y)%nat eqn:E.
    + apply Nat.ltb_lt in E. constructor; [exact IH|].
      rewrite insert_desc_perm. constructor; [lia | exact Hy].
    + apply Nat.ltb_ge in E. constructor; [now constructor|].
      constructor; [exact E|].
      eapply Forall_impl; [exact Hy|]. cbn. intros z Hz. lia.
Qed.

Lemma sort_desc_sorted {K} (l : list (K * nat)) : descending (sort_desc l).
Proof.
  induction l as [|x l IH]; [constructor|].
  change (sort_desc (x :: l)) with (insert_desc x (sort_desc l)).
  now apply insert_desc_sorted.
Qed.

(** The entries of one count keep their order: the sort is stable. *)
Lemma insert_desc_stable {K} (x : K * nat) l n :
  List.filter (fun e => snd e =? n)%nat (insert_desc x l)
  = List.filter (fun e => snd e =? n)%nat (x :: l).
Proof.
  induction l as [|y l IH]; [reflexivity|].
  cbn [insert_desc]. destruct (snd x <? snd y)%nat eqn:E; [|reflexivity].
  apply Nat.ltb_lt in E. cbn [List.filter] in *. rewrite IH.
  destruct (snd x =? n)%nat eqn:Ex, (snd y =? n)%nat eqn:Ey; try reflexivity.
  apply Nat.eqb_eq in Ex, Ey. lia.
Qed.

Lemma sort_desc_stable {K} (l : list (K * nat)) n :
  List.filter (fun e => snd e =? n)%nat (sort_desc l)
  = List.filter (fun e => snd e =? n)%nat l.
Proof.
  induction l as [|x l IH]; [reflexivity|].
  change (sort_desc (x :: l)) with (insert_desc x (sort_desc l)).
  rewrite insert_desc_stable. cbn [List.filter]. now rewrite IH.
Qed.

End TallyFacts.

(** X5. The ranking of the sources and of the keywords: sorting the entries
    of a tally keeps them all (a permutation), puts the counts in descending
    order, and leaves the entries of equal count in the order they had (ties
    go to the key that entered the tally first). *)
Theorem X5_sort_desc_stable_descending :
  forall (K : Type) (entries : list (K * nat)),
    Permutation (NewsService.sort_desc entries) entries /\
    StronglySorted (fun a b => (snd b <= snd a)%nat) (NewsService.sort_desc entries) /\
    (forall n,
       List.filter (fun e => snd e =? n)%nat (NewsService.sort_desc entries)
       = List.filter (fun e => snd e =? n)%nat entries).
Proof.
  intros K entries. split; [apply TallyFacts.sort_desc_perm|].
  split; [apply TallyFacts.sort_desc_sorted | apply TallyFacts.sort_desc_stable].
Qed.

Module CountFacts.
Import JS NewsService Observations.

Section Keys.
Context {K : Type} (same : K -> K -> bool).
Hypothesis same_sym : forall a b, same a b = same b a.
Hypothesis same_trans : forall a b c, same a b = true -> same b c = true -> same a c = true.

(** One more for the key and its likes, nothing for the others. *)
Lemma count_for_bump k w (m : list (K * nat)) :
  count_for same w (bump same k m)
  = if same k w then S (count_for same w m) else count_for same w m.
Proof.
  induction m as [|[k' n] m IH]; cbn [bump count_for]; [reflexivity|].
  destruct (same k' k) eqn:Ek; cbn [count_for].
  - destruct (same k w) eqn:Ew.
    + now rewrite (same_trans k' k w Ek Ew).
    + destruct (same k' w) eqn:Ew'; [|reflexivity].
      rewrite same_sym in Ek. rewrite (same_trans k k' w Ek Ew') in Ew. discriminate Ew.
  - destruct (same k' w) eqn:Ew'; [|exact IH].
    destruct (same k w) eqn:Ew; [|reflexivity].
    rewrite same_sym in Ew. rewrite (same_trans k' w k Ew' Ew) in Ek. discriminate Ek.
Qed.

End Keys.

Lemma total_bump {K} (same : K -> K -> bool) k (m : list (K * nat)) :
  total (bump same k m) = S (total m).
Proof.
  induction m as [|[k' n] m IH]; cbn [bump total foldr snd]; [reflexivity|].
  destruct (same k' k); cbn [total foldr snd]; [reflexivity|].
  fold (total (bump same k m)). rewrite IH. fold (total m). lia.
Qed.

Lemma keys_bump k (m : list (string * nat)) :
  List.map fst (bump String.eqb k m)
  = if bool_decide (k ∈ List.map fst m) then List.map fst m else List.map fst m ++ [k].
Proof.
  induction m as [|[k' n] m IH]; cbn [bump List.map fst app].
  - rewrite bool_decide_eq_false_2; [reflexivity|]. apply not_elem_of_nil.
  - destruct (String.eqb k' k) eqn:E; cbn [List.map fst].
    + apply String.eqb_eq in E. subst k'.
      rewrite bool_decide_eq_true_2; [reflexivity|]. apply elem_of_cons. now left.
    + apply String.eqb_neq in E. rewrite IH.
      destruct (bool_decide (k ∈ List.map fst m)) eqn:Ein.
      * apply bool_decide_eq_true in Ein.
        rewrite bool_decide_eq_true_2; [reflexivity|]. apply elem_of_cons. now right.
      * apply bool_decide_eq_false in Ein.
        rewrite bool_decide_eq_false_2; [reflexivity|].
        intros [Heq|Hin]%elem_of_cons; [congruence | contradiction].
Qed.

Lemma tally_words_snoc words w m :
  tally_words (words ++ [w]) m = bump String.eqb w (tally_words words m).
Proof. unfold tally_words. rewrite fold_left_app. reflexivity. Qed.

Lemma tally_sources_snoc arts a m :
  tally_sources (arts ++ [a]) m = bump same_value_zero (source a) (tally_sources arts m).
Proof. unfold tally_sources. rewrite fold_left_app. reflexivity. Qed.

Lemma eqb_trans (a b c : string) :
  String.eqb a b = true -> String.eqb b c = true -> String.eqb a c = true.
Proof. rewrite !String.eqb_eq. congruence. Qed.

Lemma num_same_sym a b : num_same a b = num_same b a.
Proof.
  destruct a, b; cbn; try reflexivity.
  destruct (Qeq_bool q q0) eqn:E1, (Qeq_bool q0 q) eqn:E2; try reflexivity.
  - apply Qeq_bool_iff, Qeq_sym, Qeq_bool_iff in E1. congruence.
  - apply Qeq_bool_iff, Qeq_sym, Qeq_bool_iff in E2. congruence.
Qed.

Lemma num_same_trans a b c :
  num_same a b = true -> num_same b c = true -> num_same a c = true.
Proof.
  destruct a, b, c; cbn; try discriminate; try reflexivity.
  rewrite !Qeq_bool_iff. apply Qeq_trans.
Qed.

Lemma same_value_zero_sym a b : same_value_zero a b = same_value_zero b a.
Proof.
  destruct a, b; cbn; try reflexivity.
  - now destruct b, b0.
  - apply num_same_sym.
  - apply String.eqb_sym.
Qed.

Lemma same_value_zero_trans a b c :
  same_value_zero a b = true -> same_value_zero b c = true -> same_value_zero a c = true.
Proof.
  destruct a, b, c; cbn; try discriminate; try reflexivity.
  - now destruct b, b0, b1.
  - apply num_same_trans.
  - apply eqb_trans.
Qed.

End CountFacts.

Module CountFacts2.
Import JS NewsService Observations CountFacts.

Lemma count_for_words words w :
  count_for String.eqb w (tally_words words []) = count_occ String.string_dec words w.
Proof.
  induction words as [|x words IH] using rev_ind; [reflexivity|].
  rewrite tally_words_snoc, count_occ_app.
  rewrite (count_for_bump String.eqb String.eqb_sym eqb_trans), IH.
  cbn [count_occ]. destruct (String.string_dec x w) as [->|Hne].
  - rewrite String.eqb_refl. lia.
  - apply String.eqb_neq in Hne. rewrite Hne. lia.
Qed.

Lemma total_words words : total (tally_words words []) = List.length words.
Proof.
  induction words as [|x words IH] using rev_ind; [reflexivity|].
  rewrite tally_words_snoc, total_bump, IH, length_app. cbn. lia.
Qed.

Lemma elem_of_first_occurrences (x : string) words :
  x ∈ rev (remove_dups (rev words)) <-> x ∈ rev words.
Proof.
  rewrite list_elem_of_In, <- in_rev, <- list_elem_of_In. apply elem_of_remove_dups.
Qed.

Lemma keys_words words :
  List.map fst (tally_words words []) = rev (remove_dups (rev words)).
Proof.
  induction words as [|x words IH] using rev_ind; [reflexivity|].
  rewrite tally_words_snoc, keys_bump, IH, rev_app_distr.
  cbn [rev app remove_dups].
  destruct (decide_rel elem_of x (rev words)) as [Hin|Hnin].
  - rewrite bool_decide_eq_true_2; [reflexivity|].
    now apply elem_of_first_occurrences.
  - rewrite bool_decide_eq_false_2; [reflexivity|].
    now rewrite elem_of_first_occurrences.
Qed.

Lemma count_for_sources arts key :
  count_for same_value_zero key (tally_sources arts [])
  = List.length (List.filter (fun a => same_value_zero (source a) key) arts).
Proof.
  induction arts as [|a arts IH] using rev_ind; [reflexivity|].
  rewrite tally_sources_snoc, List.filter_app, length_app.
  rewrite (count_for_bump same_value_zero same_value_zero_sym same_value_zero_trans), IH.
  cbn [List.filter]. destruct (same_value_zero (source a) key); cbn [List.length]; lia.
Qed.

Lemma total_sources arts : total (tally_sources arts []) = List.length arts.
Proof.
  induction arts as [|a arts IH] using rev_ind; [reflexivity|].
  rewrite tally_sources_snoc, total_bump, IH, length_app. cbn. lia.
Qed.

(** The loop of the pulse, as its two tallies. *)
Lemma tally_spec arts sc kc :
  tally arts sc kc =
  if forallb (fun a => is_string (title a)) arts
  then Some (tally_sources arts sc, tally_words (flat_map title_keywords arts) kc)
  else None.
Proof.
  revert sc kc. induction arts as [|a arts IH]; intros sc kc; [reflexivity|].
  cbn [tally forallb flat_map]. unfold title_keywords at 1.
  destruct (title a); try reflexivity.
  cbn [extractKeywords is_string andb mbind option_bind]. rewrite IH.
  unfold tally_words. rewrite fold_left_app. reflexivity.
Qed.

Lemma tally_is_Some arts :
  is_Some (tally arts [] []) <->
  Forall (fun a => is_string (title a) = true) arts.
Proof.
  rewrite tally_spec.
  destruct (forallb (fun a => is_string (title a)) arts) eqn:E.
  - split; [|eauto]. intros _.
    apply List.Forall_forall. now apply forallb_forall.
  - split; [intros [? H]; discriminate H|].
    intros H. pose proof (proj1 (List.Forall_forall _ _) H) as H'.
    apply (proj2 (forallb_forall _ _)) in H'. congruence.
Qed.

End CountFacts2.

(** X6. The keyword tally of the pulse counts right: built from an empty
    map over a list of words, it holds every distinct word once, in the order
    of first appearance, with the number of its occurrences, and the counts
    add up to the number of words. *)
Theorem X6_keyword_tally_counts_occurrences :
  forall words : list string,
    List.map fst (Observations.tally_words words [])
      = rev (remove_dups (rev words)) /\
    (forall w,
       Observations.count_for String.eqb w (Observations.tally_words words [])
       = count_occ String.string_dec words w) /\
    Observations.total (Observations.tally_words words []) = List.length words.
Proof.
  intros words. split; [apply CountFacts2.keys_words|].
  split; [intros w; apply CountFacts2.count_for_words | apply CountFacts2.total_words].
Qed.

(** X7. The loop of [getIndustryPulse] over the normalized articles ends
    without an exception exactly when every title is a string.  It then holds,
    for every key, as many counts as there are articles with that source (the
    counts add up to the number of articles), and for every word its number
    of occurrences among the keywords of all the titles. *)
Theorem X7_pulse_tally :
  forall arts : list NewsService.NormalizedArticle,
    (is_Some (NewsService.tally arts [] []) <->
     Forall (fun a => JS.is_string (NewsService.title a) = true) arts) /\
    (forall sourceCount keywordCount,
       NewsService.tally arts [] [] = Some (sourceCount, keywordCount) ->
       Observations.total sourceCount = List.length arts /\
       (forall key,
          Observations.count_for JS.same_value_zero key sourceCount
          = List.length
              (List.filter (fun a => JS.same_value_zero (NewsService.source a) key) arts)) /\
       (forall w,
          Observations.count_for String.eqb w keywordCount
          = count_occ String.string_dec (flat_map Observations.title_keywords arts) w)).
Proof.
  intros arts. split; [apply CountFacts2.tally_is_Some|].
  rewrite CountFacts2.tally_spec.
  - intros sc kc Hrun.
    destruct (forallb _ arts); [|discriminate Hrun]. injection Hrun as <- <-.
    split; [apply CountFacts2.total_sources|].
    split; [intros key; apply CountFacts2.count_for_sources|].
    intros w. apply CountFacts2.count_for_words.
Qed.

Lemma X7_witness :
  exists sourceCount keywordCount,
    NewsService.tally
      [ {| NewsService.title := JS.VStr "Chip makers rally"; NewsService.description := JS.VStr "";
           NewsService.url := JS.VStr ""; NewsService.source := JS.VStr "Wired";
           NewsService.publishedAt := JS.VStr ""; NewsService.author := JS.VStr "Unknown";
           NewsService.content := JS.VStr "" |};
        {| NewsService.title := JS.VStr "Rally in chip stocks fades"; NewsService.description := JS.VStr "";
           NewsService.url := JS.VStr ""; NewsService.source := JS.VStr "Wired";
           NewsService.publishedAt := JS.VStr ""; NewsService.author := JS.VStr "Unknown";
           NewsService.content := JS.VStr "" |} ] [] []
    = Some (sourceCount, keywordCount) /\
    Observations.total sourceCount = 2%nat /\
    Observations.count_for String.eqb "rally" keywordCount = 2%nat.
Proof.
  eexists _, _. split; [vm_compute; reflexivity|].
  match goal with
  | |- Observations.total ?sc = _ /\ Observations.count_for _ _ ?kc = _ =>
      pose proof (proj2 (X7_pulse_tally
        [ {| NewsService.title := JS.VStr "Chip makers rally"; NewsService.description := JS.VStr "";
             NewsService.url := JS.VStr ""; NewsService.source := JS.VStr "Wired";
             NewsService.publishedAt := JS.VStr ""; NewsService.author := JS.VStr "Unknown";
             NewsService.content := JS.VStr "" |};
          {| NewsService.title := JS.VStr "Rally in chip stocks fades"; NewsService.description := JS.VStr "";
             NewsService.url := JS.VStr ""; NewsService.source := JS.VStr "Wired";
             NewsService.publishedAt := JS.VStr ""; NewsService.author := JS.VStr "Unknown";
             NewsService.content := JS.VStr "" |} ]) sc kc) as H
  end.
  destruct H as [Htotal [_ Hwords]]; [vm_compute; reflexivity|].
  split; [exact Htotal|]. rewrite Hwords. vm_compute. reflexivity.
Defined.

Module SplitFacts.
Import JS NewsService Vocabulary Observations.

Local Open Scope string_scope.

Lemma append_cons c (a b : string) : String c a ++ b = String c (a ++ b).
Proof. reflexivity. Qed.

Lemma append_empty (b : string) : "" ++ b = b.
Proof. reflexivity. Qed.

Lemma map_chars_app f (a b : string) :
  map_chars f (a ++ b) = map_chars f a ++ map_chars f b.
Proof.
  induction a as [|c a IH]; cbn [map_chars]; [reflexivity|].
  rewrite !append_cons. cbn [map_chars]. now rewrite IH.
Qed.

Lemma length_map_chars f (s : string) : String.length (map_chars f s) = String.length s.
Proof.
  induction s as [|c s IH]; cbn [map_chars String.length]; [reflexivity | now rewrite IH].
Qed.

Lemma append_assoc (a b c : string) : (a ++ b) ++ c = a ++ (b ++ c).
Proof.
  induction a as [|x a IH]; [reflexivity|]. rewrite !append_cons. now rewrite IH.
Qed.

Lemma alnum_not_space c : is_alnum c = true -> is_space c = false.
Proof.
  destruct c as [[] [] [] [] [] [] [] []]; vm_compute; intros H;
    first [reflexivity | discriminate H].
Qed.

(** What is no letter or digit is white space once the punctuation is
    stripped. *)
Lemma strip_char_space c : is_alnum c = false -> is_space (strip_char c) = true.
Proof.
  intros H. unfold strip_char. rewrite H. cbn [orb].
  destruct (is_space c) eqn:E; [exact E | reflexivity].
Qed.

Lemma strip_char_alnum c : is_alnum c = true -> strip_char c = c.
Proof. intros H. unfold strip_char. now rewrite H. Qed.

(** A text that is empty or opens with white space splits into an empty
    first piece. *)
Lemma split_head_empty b :
  b = "" \/ starts_with_space b = true ->
  exists rest, split_spaces b = "" :: rest.
Proof.
  induction b as [|c b IH]; intros H; [now exists []|].
  destruct H as [H|H]; [discriminate H|]. cbn in H. cbn [split_spaces]. rewrite H.
  destruct (starts_with_space b) eqn:E; [apply IH; now right | eauto].
Qed.

(** A run without white space, followed by white space or by the end, is the
    first piece. *)
Lemma split_word_head w b :
  Forall (fun c => is_space c = false) (chars w) ->
  b = "" \/ starts_with_space b = true ->
  exists rest, split_spaces (w ++ b) = w :: rest.
Proof.
  intros Hw Hb. induction w as [|c w IH]; [rewrite append_empty; now apply split_head_empty|].
  cbn [chars] in Hw. apply List.Forall_cons_iff in Hw as [Hc Hw].
  destruct (IH Hw) as [rest Hrest].
  rewrite append_cons. cbn [split_spaces]. rewrite Hc, Hrest. eauto.
Qed.

Lemma in_tl {A} (x : A) l : In x (tl l) -> In x l.
Proof. destruct l; [trivial | now right]. Qed.

(** Such a run that comes after white space is a piece too. *)
Lemma split_after_space a sp w b :
  is_space sp = true -> w <> "" ->
  Forall (fun c => is_space c = false) (chars w) ->
  b = "" \/ starts_with_space b = true ->
  In w (tl (split_spaces (a ++ String sp (w ++ b)))).
Proof.
  intros Hsp Hne Hw Hb.
  destruct (split_word_head w b Hw Hb) as [rest Hrest].
  assert (Hstart : starts_with_space (w ++ b) = false).
  { destruct w as [|c w]; [congruence|]. cbn [chars] in Hw.
    apply List.Forall_cons_iff in Hw as [Hc _]. exact Hc. }
  induction a as [|c a IH].
  - rewrite append_empty. cbn [split_spaces]. rewrite Hsp, Hstart, Hrest. now left.
  - rewrite append_cons. cbn [split_spaces]. destruct (is_space c).
    + destruct (starts_with_space (a ++ String sp (w ++ b))); [exact IH|].
      cbn [tl]. now apply in_tl.
    + destruct (split_spaces (a ++ String sp (w ++ b))); [destruct IH | exact IH].
Qed.

Lemma chars_lower_word w :
  Forall (fun c => word_char c = true) (chars w) ->
  strip_punctuation (toLowerCase w) = toLowerCase w /\
  Forall (fun c => is_space c = false) (chars (toLowerCase w)).
Proof.
  unfold strip_punctuation, toLowerCase, word_char.
  induction w as [|c w IH]; intros H; [split; [reflexivity | constructor]|].
  cbn [chars] in H. apply List.Forall_cons_iff in H as [Hc Hw].
  destruct (IH Hw) as [IH1 IH2]. cbn [map_chars chars]. split.
  - now rewrite strip_char_alnum, IH1.
  - constructor; [now apply alnum_not_space | exact IH2].
Qed.

End SplitFacts.

(** X8. No keyword is lost: a word of the title, that is a run of letters and
    digits that starts at the beginning of the text or after another
    character and ends at the end of the text or before another character,
    is among the extracted keywords, lower-cased, as soon as it is longer
    than 3 characters and no stop-word. *)
Theorem X8_extractKeywords_finds_every_word :
  forall pre w post : string,
    Forall (fun c => Observations.word_char c = true) (Vocabulary.chars w) ->
    (pre = "" \/ exists pre' d, pre = (pre' ++ String d "")%string /\ Observations.word_char d = false) ->
    (post = "" \/ exists d post', post = String d post' /\ Observations.word_char d = false) ->
    (3 < String.length w)%nat ->
    NewsService.toLowerCase w ∉ NewsService.stopWords ->
    In (NewsService.toLowerCase w) (NewsService.keywords_of (pre ++ w ++ post)%string).
Proof.
  intros pre w post Hw Hpre Hpost Hlen Hstop.
  destruct (SplitFacts.chars_lower_word w Hw) as [Hstrip Hnosp].
  unfold NewsService.keywords_of. apply filter_In. split.
  - unfold NewsService.strip_punctuation, NewsService.toLowerCase in *.
    rewrite !SplitFacts.map_chars_app, Hstrip.
    set (W := NewsService.map_chars NewsService.lower_char w) in *.
    set (Q := NewsService.map_chars NewsService.strip_char
                (NewsService.map_chars NewsService.lower_char post)).
    assert (HQ : Q = "" \/ NewsService.starts_with_space Q = true).
    { destruct Hpost as [->|[d [post' [-> Hd]]]]; [now left|]. right.
      subst Q. cbn. now apply SplitFacts.strip_char_space. }
    destruct Hpre as [->|[pre' [d [-> Hd]]]].
    + cbn [NewsService.map_chars]. rewrite SplitFacts.append_empty.
      destruct (SplitFacts.split_word_head W Q Hnosp HQ) as [rest ->]. now left.
    + rewrite !SplitFacts.map_chars_app. cbn [NewsService.map_chars].
      rewrite SplitFacts.append_assoc, SplitFacts.append_cons, SplitFacts.append_empty.
      apply SplitFacts.in_tl, SplitFacts.split_after_space; try assumption.
      * now apply SplitFacts.strip_char_space.
      * intros HW. subst W.
        pose proof (SplitFacts.length_map_chars NewsService.lower_char w) as Hl.
        rewrite HW in Hl. cbn in Hl. lia.
  - apply KeywordFacts.keep_word_spec. split; [|exact Hstop].
    unfold NewsService.toLowerCase. rewrite SplitFacts.length_map_chars. exact Hlen.
Qed.

Lemma X8_witness :
  In "markets" (NewsService.keywords_of "Breaking: Markets rally").
Proof.
  apply (X8_extractKeywords_finds_every_word "Breaking: " "Markets" " rally").
  - repeat constructor.
  - right. exists "Breaking:", " "%char. split; reflexivity.
  - right. exists " "%char, "rally". split; reflexivity.
  - cbn. lia.
  - assert (H : NewsService.keep_word "markets" = true) by (vm_compute; reflexivity).
    exact (proj2 (proj1 (KeywordFacts.keep_word_spec "markets") H)).
Defined.

Module ShapeFacts.
Import JS NewsService Vocabulary Observations.

Lemma truthy_not_nullish v : truthy v = true -> is_nullish v = false.
Proof. destruct v; cbn; congruence. Qed.

Lemma or_else_not_nullish x d : is_nullish (or_else x (VStr d)) = false.
Proof.
  unfold or_else. destruct (truthy x) eqn:E; [now apply truthy_not_nullish | reflexivity].
Qed.

Lemma or_else_truthy x d : d <> "" -> truthy (or_else x (VStr d)) = true.
Proof.
  intros Hd. unfold or_else. destruct (truthy x) eqn:E; [exact E|].
  cbn. apply negb_true_iff, String.eqb_neq. exact Hd.
Qed.

Lemma normalizeArticle_shape item a :
  normalizeArticle item = Some a -> is_nullish item = false /\ well_shaped a.
Proof.
  intros H.
  assert (Hshape : forall t d u s p au c,
            well_shaped {| title := or_else t (VStr ""); description := or_else d (VStr "");
                           url := or_else u (VStr "");
                           source := or_else s (VStr "unknown");
                           publishedAt := or_else p (VStr "");
                           author := or_else au (VStr "Unknown");
                           content := or_else c (VStr "") |}).
  { intros. unfold well_shaped. cbn [title description url source publishedAt author content].
    rewrite !or_else_not_nullish, !or_else_truthy by discriminate. repeat split. }
  destruct item as [| | b | n | s | items | props]; try discriminate H.
  5: { rewrite NormalizeFacts.normalizeArticle_object in H. injection H as <-.
       split; [reflexivity | apply Hshape]. }
  all: cbn in H; injection H as <-; split; [reflexivity|];
    unfold well_shaped; cbn; repeat split.
Qed.

End ShapeFacts.

(** X9. [normalizeArticles] succeeds exactly on an array without [null] or
    [undefined] elements (anything else raises inside the [try]); it then
    gives one record per element, in order, whatever the elements are, and in
    every record no field is [undefined] or [null], and the source and the
    author are never empty. *)
Theorem X9_normalizeArticles_shape :
  forall articles : JS.value,
    (is_Some (NewsService.normalizeArticles articles) <->
     exists items, articles = JS.VArr items /\
                   Forall (fun item => JS.is_nullish item = false) items) /\
    (forall out,
       NewsService.normalizeArticles articles = Some out ->
       exists items,
         articles = JS.VArr items /\
         List.length out = List.length items /\
         Forall2 (fun item a => NewsService.normalizeArticle item = Some a) items out /\
         Forall Observations.well_shaped out).
Proof.
  intros articles. split.
  - split.
    + intros [out Hout]. destruct articles; try discriminate Hout.
      eexists. split; [reflexivity|]. cbn in Hout.
      apply mapM_Some_1 in Hout.
      induction Hout as [|item a items out Ha _ IH]; constructor; [|exact IH].
      now apply ShapeFacts.normalizeArticle_shape in Ha.
    + intros [items [-> Hall]]. cbn [NewsService.normalizeArticles].
      apply mapM_is_Some. eapply Forall_impl; [exact Hall|].
      intros item Hitem. now apply WrapperFacts.normalizeArticle_is_Some.
  - intros out Hout. destruct articles; try discriminate Hout.
    eexists. split; [reflexivity|]. cbn in Hout. apply mapM_Some_1 in Hout.
    split; [symmetry; eapply Forall2_length; exact Hout|]. split; [exact Hout|].
    induction Hout as [|item a items' out Ha _ IH]; constructor; [|exact IH].
    now apply ShapeFacts.normalizeArticle_shape in Ha.
Qed.

Lemma X9_witness :
  exists out,
    NewsService.normalizeArticles
      (JS.VArr [JS.VNum (JS.num 5); JS.VObj [("source", JS.VObj [("name", JS.VStr "")])]])
    = Some out /\
    List.map NewsService.source out = [JS.VStr "unknown"; JS.VStr "unknown"] /\
    Forall Observations.well_shaped out.
Proof.
  eexists. split; [vm_compute; reflexivity|]. split; [reflexivity|].
  match goal with
  | |- Forall _ ?out =>
      destruct (proj2 (X9_normalizeArticles_shape
                  (JS.VArr [JS.VNum (JS.num 5);
                            JS.VObj [("source", JS.VObj [("name", JS.VStr "")])]])) out)
        as [items [_ [_ [_ H]]]]; [vm_compute; reflexivity | exact H]
  end.
Defined.

Module RuleFacts.
Import JS Eff NewsService Vocabulary Observations WrapperFacts.

Lemma Qle_bool_false_lt x y : Qle_bool x y = false -> (y < x)%Q.
Proof.
  intros H. destruct (Qlt_le_dec y x) as [Hlt|Hle]; [exact Hlt|].
  apply Qle_bool_iff in Hle. congruence.
Qed.

Lemma Qlt_Qle_bool_false x y : (y < x)%Q -> Qle_bool x y = false.
Proof.
  intros H. destruct (Qle_bool x y) eqn:E; [|reflexivity].
  apply Qle_bool_iff in E. exfalso. eapply Qlt_not_le; eassumption.
Qed.

Lemma Qeq_bool_false_neq x y : ~ (x == y)%Q -> Qeq_bool x y = false.
Proof.
  intros H. destruct (Qeq_bool x y) eqn:E; [|reflexivity].
  apply Qeq_bool_iff in E. contradiction.
Qed.

Lemma Qeq_bool_true_eq x y : (x == y)%Q -> Qeq_bool x y = true.
Proof. apply Qeq_bool_iff. Qed.

Lemma page_size_rule_holds (requested : option number) (d : Z) :
  (0 < d <= 100)%Z ->
  page_size_rule requested d (Math_min (num_or requested (num d)) (num 100)).
Proof.
  intros Hd.
  assert (Hdef : Math_min (num d) (num 100) = num d).
  { cbn. replace (Qle_bool (inject_Z d) (inject_Z 100)) with true; [reflexivity|].
    symmetry. apply Qle_bool_iff. rewrite <- Zle_Qle. lia. }
  unfold page_size_rule. repeat split.
  - intros [->|[->|[q [-> Hq]]]]; cbn [num_or truthy_num]; try exact Hdef.
    rewrite (Qeq_bool_true_eq _ _ Hq). exact Hdef.
  - intros q -> Hq Hle. cbn [num_or truthy_num].
    rewrite (Qeq_bool_false_neq _ _ Hq). cbn.
    apply Qle_bool_iff in Hle. change (inject_Z 100) with 100%Q. now rewrite Hle.
  - intros q -> Hlt. cbn [num_or truthy_num].
    rewrite Qeq_bool_false_neq.
    + cbn. change (inject_Z 100) with 100%Q. now rewrite (Qlt_Qle_bool_false _ _ Hlt).
    + intros Hq. rewrite Hq in Hlt. discriminate Hlt.
  - intros ->. reflexivity.
  - intros ->. reflexivity.
Qed.

Lemma window_rule_holds (days : option number) (d lo hi : Z) :
  (0 < lo <= d)%Z -> (d <= hi)%Z ->
  window_rule days d lo hi (Math_min (Math_max (num_or days (num d)) (num lo)) (num hi)).
Proof.
  intros Hlo Hhi.
  assert (Q_lo_hi : Qle_bool (inject_Z lo) (inject_Z hi) = true).
  { apply Qle_bool_iff. rewrite <- Zle_Qle. lia. }
  assert (Hdef : Math_min (Math_max (num d) (num lo)) (num hi) = num d).
  { cbn. destruct (Qle_bool (inject_Z d) (inject_Z lo)) eqn:E.
    - apply Qle_bool_iff in E. rewrite <- Zle_Qle in E.
      assert (d = lo) as -> by lia. cbn. now rewrite Q_lo_hi.
    - cbn. replace (Qle_bool (inject_Z d) (inject_Z hi)) with true; [reflexivity|].
      symmetry. apply Qle_bool_iff. rewrite <- Zle_Qle. lia. }
  unfold window_rule. repeat split.
  - intros [->|[->|[q [-> Hq]]]]; cbn [num_or truthy_num]; try exact Hdef.
    rewrite (Qeq_bool_true_eq _ _ Hq). exact Hdef.
  - intros q -> Hq Hle. cbn [num_or truthy_num].
    rewrite (Qeq_bool_false_neq _ _ Hq). cbn.
    apply Qle_bool_iff in Hle. rewrite Hle. cbn. now rewrite Q_lo_hi.
  - intros ->. cbn. now rewrite Q_lo_hi.
  - intros q -> Hlt Hle. cbn [num_or truthy_num].
    rewrite Qeq_bool_false_neq.
    + cbn. rewrite (Qlt_Qle_bool_false _ _ Hlt). cbn.
      apply Qle_bool_iff in Hle. now rewrite Hle.
    + intros Hq. rewrite Hq in Hlt.
      assert (0 < inject_Z lo)%Q by (change 0%Q with (inject_Z 0); rewrite <- Zlt_Qlt; lia).
      eapply Qlt_irrefl, Qlt_trans; eassumption.
  - intros q -> Hlt. cbn [num_or truthy_num].
    assert (Hlo' : (inject_Z lo < q)%Q).
    { eapply Qle_lt_trans; [|exact Hlt]. now apply Qle_bool_iff. }
    rewrite Qeq_bool_false_neq.
    + cbn. rewrite (Qlt_Qle_bool_false _ _ Hlo'). cbn.
      now rewrite (Qlt_Qle_bool_false _ _ Hlt).
    + intros Hq. rewrite Hq in Hlo'.
      assert (0 < inject_Z lo)%Q by (change 0%Q with (inject_Z 0); rewrite <- Zlt_Qlt; lia).
      eapply Qlt_irrefl, Qlt_trans; eassumption.
  - intros ->. reflexivity.
Qed.

End RuleFacts.

(** X10. The page size that [getTopHeadlines], [searchNews] and
    [getCompanyNews] send, for the one asked for: 0 and [NaN] count as not
    asked for and give the default (20, 20, 10); what exceeds 100, infinity
    included, is cut to 100; every other number, negative or fractional, is
    sent as it is (there is no lower bound). *)
Theorem X10_page_size_sent :
  forall (apiKey : string) (net : Eff.network),
    (forall args req,
       In req (Eff.requests (Eff.run (NewsService.getTopHeadlines apiKey args) net).2) ->
       exists n, Vocabulary.page_size req = JS.VNum n /\
                 Observations.page_size_rule (NewsService.th_pageSize args) 20 n) /\
    (forall args req,
       In req (Eff.requests (Eff.run (NewsService.searchNews apiKey args) net).2) ->
       exists n, Vocabulary.page_size req = JS.VNum n /\
                 Observations.page_size_rule (NewsService.sn_pageSize args) 20 n) /\
    (forall args req,
       In req (Eff.requests (Eff.run (NewsService.getCompanyNews apiKey args) net).2) ->
       exists n, Vocabulary.page_size req = JS.VNum n /\
                 Observations.page_size_rule (NewsService.cn_pageSize args) 10 n).
Proof.
  intros apiKey net. repeat split; intros args req Hin.
  - destruct (QueryFacts.getTopHeadlines_fetch apiKey args) as [req' [Hf Hp]].
    rewrite Hf, QueryFacts.fetch_requests in Hin. apply in_inv in Hin as [<-|[]].
    eexists. split; [exact Hp|]. apply RuleFacts.page_size_rule_holds. lia.
  - destruct (JS.truthy (NewsService.sn_query args)) eqn:Hq.
    + destruct (QueryFacts.searchNews_fetch apiKey args Hq) as [req' [Hf Hp]].
      rewrite Hf, QueryFacts.fetch_requests in Hin. apply in_inv in Hin as [<-|[]].
      eexists. split; [exact Hp|]. apply RuleFacts.page_size_rule_holds. lia.
    + rewrite QueryFacts.searchNews_guard in Hin by exact Hq. destruct Hin.
  - destruct (JS.truthy (NewsService.cn_companyName args)) eqn:Hq.
    + destruct (QueryFacts.getCompanyNews_fetch apiKey args Hq) as [req' [Hf Hp]].
      rewrite Hf, QueryFacts.fetch_requests in Hin. apply in_inv in Hin as [<-|[]].
      eexists. split; [exact Hp|]. apply RuleFacts.page_size_rule_holds. lia.
    + rewrite QueryFacts.getCompanyNews_guard in Hin by exact Hq. destruct Hin.
Qed.

Lemma X10_witness :
  List.map Vocabulary.page_size
    (Eff.requests
       (Eff.run (NewsService.searchNews "key"
                   {| NewsService.sn_query := JS.VStr "chips";
                      NewsService.sn_sortBy := JS.VUndef;
                      NewsService.sn_language := JS.VUndef;
                      NewsService.sn_pageSize := Some (JS.num (-5)) |})
                (fun _ _ => Eff.NetworkError)).2)
  = [JS.VNum (JS.num (-5))].
Proof.
  destruct (X10_page_size_sent "key" (fun _ _ => Eff.NetworkError)) as [_ [Hsearch _]].
  destruct (Hsearch
              {| NewsService.sn_query := JS.VStr "chips";
                 NewsService.sn_sortBy := JS.VUndef;
                 NewsService.sn_language := JS.VUndef;
                 NewsService.sn_pageSize := Some (JS.num (-5)) |}
              _ (or_introl eq_refl)) as [n [Hp [_ [Hsent _]]]].
  refine (f_equal (fun x => [x]) (eq_trans Hp (f_equal JS.VNum (Hsent _ eq_refl _ _))));
    discriminate.
Defined.

Module InsightFacts.
Import JS Eff NewsService Vocabulary Observations WrapperFacts.

(** The two requests of a comparison and what may follow them in the
    trace. *)
Lemma compareCompanyCoverage_trace `{Host} key args net :
  let windowDays :=
    Math_min (Math_max (num_or (cc_days args) (num 7)) (num 1)) (num 14) in
  exists r reqA reqB log,
    run (compareCompanyCoverage key args) net = (inr r, HttpGet reqA :: HttpGet reqB :: log) /\
    from_param reqA = VStr (getDateDaysAgo windowDays) /\
    from_param reqB = VStr (getDateDaysAgo windowDays) /\
    (log = [] \/ exists e, log = [ConsoleError "error comparing company coverage:" e]).
Proof.
  intros windowDays.
  destruct (CoverageFacts.compareCompanyCoverage_run key args net) as [log [Hlog Hrun]].
  eexists _, _, _, log. split; [exact Hrun|].
  split; [reflexivity|]. split; [reflexivity|]. exact Hlog.
Qed.

End InsightFacts.

(** X11. The window of the three insight operations, for the days asked
    for: every request they send carries [from = getDateDaysAgo(w)] where [w]
    is the default (7, 7, 3) when days is absent, 0 or [NaN] (0 gives the
    default, not the lower bound), 1 when days is below 1, the upper bound
    (14, 14, 7) when days is above it, and days itself in between, fractions
    included. *)
Theorem X11_window_used :
  forall (H : Host) (apiKey : string) (net : Eff.network),
    (forall args req,
       In req (Eff.requests (Eff.run (NewsService.getIndustryPulse apiKey args) net).2) ->
       exists w, Observations.from_param req = JS.VStr (getDateDaysAgo w) /\
                 Observations.window_rule (NewsService.ip_days args) 7 1 14 w) /\
    (forall args req,
       In req (Eff.requests (Eff.run (NewsService.compareCompanyCoverage apiKey args) net).2) ->
       exists w, Observations.from_param req = JS.VStr (getDateDaysAgo w) /\
                 Observations.window_rule (NewsService.cc_days args) 7 1 14 w) /\
    (forall args req,
       In req (Eff.requests (Eff.run (NewsService.getMarketMovingEvents apiKey args) net).2) ->
       exists w, Observations.from_param req = JS.VStr (getDateDaysAgo w) /\
                 Observations.window_rule (NewsService.mm_days args) 3 1 7 w).
Proof.
  intros H apiKey net. repeat split; intros args req Hin.
  - destruct (WindowFacts.getIndustryPulse_window apiKey args net)
      as [r [req' [Hfrom [[Hrun _]|[e [Hrun _]]]]]];
      rewrite Hrun in Hin; apply in_inv in Hin as [<-|[]];
      (eexists; split; [exact Hfrom | apply RuleFacts.window_rule_holds; lia]).
  - destruct (InsightFacts.compareCompanyCoverage_trace apiKey args net)
      as [r [reqA [reqB [log [Hrun [HA [HB Hlog]]]]]]].
    rewrite Hrun in Hin. cbn [snd] in Hin.
    assert (Hreq : req = reqA \/ req = reqB).
    { destruct Hlog as [->|[e ->]]; cbn in Hin; intuition congruence. }
    destruct Hreq as [->| ->];
      (eexists; split; [eassumption | apply RuleFacts.window_rule_holds; lia]).
  - destruct (WindowFacts.getMarketMovingEvents_window apiKey args net)
      as [r [req' [Hfrom [[Hrun _]|[e [Hrun _]]]]]];
      rewrite Hrun in Hin; apply in_inv in Hin as [<-|[]];
      (eexists; split; [exact Hfrom | apply RuleFacts.window_rule_holds; lia]).
Qed.

Lemma X11_witness :
  List.map Observations.from_param
    (Eff.requests
       (Eff.run (NewsService.getIndustryPulse (H := ExampleHost.host) "key"
                   {| NewsService.ip_industry := "fintech";
                      NewsService.ip_days := Some (JS.num 0);
                      NewsService.ip_language := JS.VUndef |})
                (fun _ _ => Eff.NetworkError)).2)
  = [JS.VStr "now-7d"].
Proof.
  destruct (X11_window_used ExampleHost.host "key" (fun _ _ => Eff.NetworkError))
    as [Hpulse _].
  destruct (Hpulse
              {| NewsService.ip_industry := "fintech";
                 NewsService.ip_days := Some (JS.num 0);
                 NewsService.ip_language := JS.VUndef |}
              _ (or_introl eq_refl)) as [w [Hfrom [Hdefault _]]].
  assert (Hw : w = JS.num 7).
  { apply Hdefault. right. right. exists (inject_Z 0). split; reflexivity. }
  rewrite Hw in Hfrom.
  exact (f_equal (fun x => [x]) Hfrom).
Defined.

(** X12. No retry and no fan-out beyond the code's own: whatever the network
    does, [getTopHeadlines], [getIndustryPulse] and [getMarketMovingEvents]
    send exactly one request; [searchNews] and [getCompanyNews] send one when
    the query is there and none otherwise; [compareCompanyCoverage] sends
    exactly two, the second also when the first fails. *)
Theorem X12_requests_sent :
  forall (H : Host) (apiKey : string) (net : Eff.network),
    (forall args,
       List.length (Eff.requests (Eff.run (NewsService.getTopHeadlines apiKey args) net).2)
       = 1%nat) /\
    (forall args,
       List.length (Eff.requests (Eff.run (NewsService.searchNews apiKey args) net).2)
       = if JS.truthy (NewsService.sn_query args) then 1%nat else 0%nat) /\
    (forall args,
       List.length (Eff.requests (Eff.run (NewsService.getCompanyNews apiKey args) net).2)
       = if JS.truthy (NewsService.cn_companyName args) then 1%nat else 0%nat) /\
    (forall args,
       List.length (Eff.requests (Eff.run (NewsService.getIndustryPulse apiKey args) net).2)
       = 1%nat) /\
    (forall args,
       List.length
         (Eff.requests (Eff.run (NewsService.compareCompanyCoverage apiKey args) net).2)
       = 2%nat) /\
    (forall args,
       List.length
         (Eff.requests (Eff.run (NewsService.getMarketMovingEvents apiKey args) net).2)
       = 1%nat).
Proof.
  intros H apiKey net. repeat split; intros args.
  - destruct (QueryFacts.getTopHeadlines_fetch apiKey args) as [req [-> _]].
    now rewrite QueryFacts.fetch_requests.
  - destruct (JS.truthy (NewsService.sn_query args)) eqn:Hq.
    + destruct (QueryFacts.searchNews_fetch apiKey args Hq) as [req [-> _]].
      now rewrite QueryFacts.fetch_requests.
    + now rewrite QueryFacts.searchNews_guard.
  - destruct (JS.truthy (NewsService.cn_companyName args)) eqn:Hq.
    + destruct (QueryFacts.getCompanyNews_fetch apiKey args Hq) as [req [-> _]].
      now rewrite QueryFacts.fetch_requests.
    + now rewrite QueryFacts.getCompanyNews_guard.
  - destruct (WindowFacts.getIndustryPulse_window apiKey args net)
      as [r [req [_ [[-> _]|[e [-> _]]]]]]; reflexivity.
  - destruct (InsightFacts.compareCompanyCoverage_trace apiKey args net)
      as [r [reqA [reqB [log [-> [_ [_ [->|[e ->]]]]]]]]]; reflexivity.
  - destruct (WindowFacts.getMarketMovingEvents_window apiKey args net)
      as [r [req [_ [[-> _]|[e [-> _]]]]]]; reflexivity.
Qed.

Module LogFacts.
Import JS Eff NewsService Vocabulary Observations WrapperFacts.

(** A failed outcome is one that does not settle with a payload from which
    the result can be read. *)
Lemma outcome_failed_iff o :
  outcome_failed o <->
  match settle o with
  | inr data => read_result data = None
  | inl _ => True
  end.
Proof.
  destruct o as [|st data]; cbn [settle outcome_failed]; [tauto|].
  destruct (ok_status st) eqn:Eok.
  - pose proof (read_result_mappable data) as Hm. split.
    + intros [Hst|Hmap]; [discriminate Hst|].
      destruct (read_result data) eqn:Er; [|reflexivity].
      assert (Hs : is_Some (Some s)) by eauto. apply Hm in Hs. congruence.
    + intros Hr. right. destruct (mappable_payload data) eqn:Em; [|reflexivity].
      destruct (proj2 Hm eq_refl) as [r Hr']. congruence.
  - split; [trivial | now left].
Qed.

Lemma fetch_logged label req net :
  logged (run (fetch label req) net).2 = true <-> call_failed net (run (fetch label req) net).2.
Proof.
  assert (Hhead : head (requests (run (fetch label req) net).2) = Some req)
    by now rewrite QueryFacts.fetch_requests.
  assert (Hcf : call_failed net (run (fetch label req) net).2 <-> outcome_failed (net 0%nat req)).
  { unfold call_failed. split.
    - intros [req' [Hreq Hfail]]. rewrite Hhead in Hreq. now injection Hreq as <-.
    - intros Hfail. exists req. now split. }
  rewrite Hcf, outcome_failed_iff, fetch_run.
  destruct (settle (net 0%nat req)) as [e|data]; [cbn; tauto|].
  destruct (read_result data); cbn; split; congruence.
Qed.

Lemma silent_guard (net : network) : logged [] = true <-> call_failed net [].
Proof.
  split; [discriminate|]. intros [req [Hreq _]]. discriminate Hreq.
Qed.

End LogFacts.

(** X13. The query wrappers write to [console.error] exactly when the
    outbound call failed (no answer, a status outside 2xx, or a payload from
    which the articles cannot be mapped): an answer that was read is never
    logged as an error, and a failure never goes unlogged. *)
Theorem X13_logged_iff_failed :
  forall (apiKey : string) (net : Eff.network),
    (forall args,
       let tr := (Eff.run (NewsService.getTopHeadlines apiKey args) net).2 in
       Observations.logged tr = true <-> Vocabulary.call_failed net tr) /\
    (forall args,
       let tr := (Eff.run (NewsService.searchNews apiKey args) net).2 in
       Observations.logged tr = true <-> Vocabulary.call_failed net tr) /\
    (forall args,
       let tr := (Eff.run (NewsService.getCompanyNews apiKey args) net).2 in
       Observations.logged tr = true <-> Vocabulary.call_failed net tr).
Proof.
  intros apiKey net. split; [|split]; intros args; cbv zeta.
  - destruct (QueryFacts.getTopHeadlines_fetch apiKey args) as [req [-> _]].
    apply LogFacts.fetch_logged.
  - destruct (JS.truthy (NewsService.sn_query args)) eqn:Hq.
    + destruct (QueryFacts.searchNews_fetch apiKey args Hq) as [req [-> _]].
      apply LogFacts.fetch_logged.
    + rewrite QueryFacts.searchNews_guard by exact Hq. apply LogFacts.silent_guard.
  - destruct (JS.truthy (NewsService.cn_companyName args)) eqn:Hq.
    + destruct (QueryFacts.getCompanyNews_fetch apiKey args Hq) as [req [-> _]].
      apply LogFacts.fetch_logged.
    + rewrite QueryFacts.getCompanyNews_guard by exact Hq. apply LogFacts.silent_guard.
Qed.

Module PulseFacts.
Import JS Eff NewsService Vocabulary Observations WrapperFacts.





End PulseFacts.



Module MoversFacts.
Import JS Eff NewsService Vocabulary Observations WrapperFacts.


End MoversFacts.



Module RouteFacts2.
Import JS Eff NewsService Server Vocabulary Observations WrapperFacts.


Lemma wrapper_answers net m :
  degrades_to_empty net m -> exists r tr, run m net = (inr r, tr).
Proof. intros [r [tr [Hrun _]]]. eauto. Qed.







End RouteFacts2.



Module RouteFacts3.
Import JS Eff NewsService Server Vocabulary Observations WrapperFacts.





End RouteFacts3.



Module RevisionFacts.
Import JS Eff Vocabulary Observations WrapperFacts.

(** The shape shared by the first wrappers once the request is built. *)
Lemma first_run callback label req net :
  run (try_catch
         (data ← axios_get req; lift (FirstNewsService.read_result callback data))
         (fun error => console_error label error;; mret FirstNewsService.empty_result)) net =
  match settle (net 0%nat req) with
  | inr data =>
      match FirstNewsService.read_result callback data with
      | Some r => (inr r, [HttpGet req])
      | None => (inr FirstNewsService.empty_result, [HttpGet req; ConsoleError label TypeError])
      end
  | inl e => (inr FirstNewsService.empty_result, [HttpGet req; ConsoleError label e])
  end.
Proof.
  unfold_eff. change (List.length (requests [])) with 0%nat.
  destruct (settle (net 0%nat req)) as [e|data]; [reflexivity|].
  destruct (FirstNewsService.read_result callback data); reflexivity.
Qed.

Lemma mapHeadline_not_nullish item l :
  FirstNewsService.mapHeadline item = Some l ->
  is_nullish item = false /\ is_nullish (get_prop_opt item "source") = false.
Proof.
  destruct item as [| | b | n | s | items | props]; try discriminate; cbn; intros H.
  all: split; [reflexivity|]; try discriminate H.
  destruct (assoc "source" props); try discriminate H; reflexivity.
Qed.

Lemma mapSearched_not_nullish item l :
  FirstNewsService.mapSearched item = Some l ->
  is_nullish item = false /\ is_nullish (get_prop_opt item "source") = false.
Proof.
  destruct item as [| | b | n | s | items | props]; try discriminate; cbn; intros H.
  all: split; [reflexivity|]; try discriminate H.
  destruct (assoc "source" props); try discriminate H; reflexivity.
Qed.

(** Where a first callback maps every element, the normalization does too,
    to as many records. *)
Lemma mapM_first_then_current callback items (mapped : list FirstNewsService.MappedArticle) :
  (forall item l, callback item = Some l -> is_nullish item = false) ->
  mapM callback items = Some mapped ->
  exists out, mapM NewsService.normalizeArticle items = Some out /\
              List.length out = List.length mapped.
Proof.
  intros Hcb Hm. apply mapM_Some_1 in Hm.
  induction Hm as [|item l items mapped Hl _ [out [Hout Hlen]]].
  - exists []. split; reflexivity.
  - destruct (normalizeArticle_is_Some item (Hcb _ _ Hl)) as [a Ha].
    exists (a :: out). split; [|cbn; now rewrite Hlen].
    cbn [mapM]. rewrite Ha. cbn. rewrite Hout. reflexivity.
Qed.

Lemma read_first_then_current callback data rf :
  (forall item l, callback item = Some l -> is_nullish item = false) ->
  FirstNewsService.read_result callback data = Some rf ->
  exists rc, NewsService.read_result data = Some rc /\
             NewsService.totalResults rc = FirstNewsService.totalResults rf /\
             List.length (NewsService.articles rc)
             = List.length (FirstNewsService.articles rf).
Proof.
  intros Hcb. unfold FirstNewsService.read_result, NewsService.read_result.
  destruct (get_prop data "articles") as [raw|]; [|discriminate]. cbn.
  destruct raw as [| | | | | items |]; try discriminate.
  destruct (mapM callback items) as [mapped|] eqn:Em; [|discriminate]. cbn.
  destruct (mapM_first_then_current callback items mapped Hcb Em) as [out [Hout Hlen]].
  rewrite Hout. cbn.
  destruct (get_prop data "totalResults") as [total|]; [|discriminate]. cbn.
  intros [= <-]. eexists. split; [reflexivity|]. split; [reflexivity | exact Hlen].
Qed.

End RevisionFacts.

Module RevisionFacts2.
Import JS Eff Vocabulary Observations Revisions WrapperFacts.

Lemma get_prop_not_nullish v k : is_nullish v = false -> get_prop v k = Some (get_prop_opt v k).
Proof. destruct v; try discriminate; reflexivity. Qed.

Lemma first_fetch_run callback label req net :
  run (first_fetch callback label req) net =
  match settle (net 0%nat req) with
  | inr data =>
      match FirstNewsService.read_result callback data with
      | Some r => (inr r, [HttpGet req])
      | None => (inr FirstNewsService.empty_result, [HttpGet req; ConsoleError label TypeError])
      end
  | inl e => (inr FirstNewsService.empty_result, [HttpGet req; ConsoleError label e])
  end.
Proof. apply RevisionFacts.first_run. Qed.

Lemma fetch_carries_over callback label label' req net :
  (forall item l, callback item = Some l -> is_nullish item = false) ->
  answers_carry_over net (first_fetch callback label req) (fetch label' req).
Proof.
  intros Hcb. unfold answers_carry_over. rewrite first_fetch_run, fetch_run.
  destruct (settle (net 0%nat req)) as [e|data].
  - eexists _, _, _, _. repeat split; try reflexivity; discriminate.
  - destruct (FirstNewsService.read_result callback data) as [rf|] eqn:Ef.
    + destruct (RevisionFacts.read_first_then_current callback data rf Hcb Ef)
        as [rp [-> [Htot Hlen]]].
      eexists _, _, _, _. repeat split; try reflexivity; assumption.
    + destruct (NewsService.read_result data);
        eexists _, _, _, _; repeat split; try reflexivity; discriminate.
Qed.

(** A callback that reads [article.source.name] raises on an element without
    source. *)
Lemma mapM_without_source (callback : value -> option FirstNewsService.MappedArticle) items :
  (forall item l, callback item = Some l -> is_nullish (get_prop_opt item "source") = false) ->
  Exists (fun item => is_nullish (get_prop_opt item "source") = true) items ->
  mapM callback items = None.
Proof.
  intros Hcb Hex. destruct (mapM callback items) as [mapped|] eqn:Em; [|reflexivity].
  exfalso. apply mapM_Some_1 in Em.
  induction Em as [|item l items mapped Hl _ IH]; [inversion Hex|].
  apply Exists_cons in Hex as [Hhere|Hlater]; [|now apply IH].
  rewrite (Hcb _ _ Hl) in Hhere. discriminate Hhere.
Qed.

Lemma fetch_lost_without_source callback label label' req net :
  (forall item l, callback item = Some l -> is_nullish (get_prop_opt item "source") = false) ->
  lost_without_source net (first_fetch callback label req) (fetch label' req).
Proof.
  intros Hcb req' data items Hhead Hs Harts Hall Hex.
  assert (req' = req) as ->.
  { rewrite first_fetch_run in Hhead.
    destruct (settle (net 0%nat req)); [|destruct (FirstNewsService.read_result _ _)];
      cbn in Hhead; congruence. }
  rewrite first_fetch_run, fetch_run, Hs.
  assert (Hdata : is_nullish data = false).
  { destruct data; try reflexivity; discriminate Harts. }
  assert (Hfirst : FirstNewsService.read_result callback data = None).
  { unfold FirstNewsService.read_result.
    rewrite (get_prop_not_nullish data "articles" Hdata), Harts. cbn.
    now rewrite (mapM_without_source callback items Hcb Hex). }
  rewrite Hfirst. split; [reflexivity|]. split; [reflexivity|].
  assert (Hsome : is_Some (mapM NewsService.normalizeArticle items)).
  { apply mapM_is_Some. eapply Forall_impl; [exact Hall|].
    intros item Hitem. now apply normalizeArticle_is_Some. }
  destruct Hsome as [out Hout].
  assert (Hpresent : NewsService.read_result data
                     = Some {| NewsService.articles := out;
                               NewsService.totalResults := get_prop_opt data "totalResults" |}).
  { unfold NewsService.read_result.
    rewrite (get_prop_not_nullish data "articles" Hdata),
      (get_prop_not_nullish data "totalResults" Hdata), Harts.
    cbn. rewrite Hout. reflexivity. }
  rewrite Hpresent. eexists. split; [reflexivity|]. split; [|reflexivity].
  cbn. apply mapM_Some_1 in Hout. symmetry. eapply Forall2_length. exact Hout.
Qed.

Lemma headline_callback_source item l :
  FirstNewsService.mapHeadline item = Some l ->
  is_nullish (get_prop_opt item "source") = false.
Proof. intros H. now apply RevisionFacts.mapHeadline_not_nullish in H. Qed.

Lemma headline_callback_item item l :
  FirstNewsService.mapHeadline item = Some l -> is_nullish item = false.
Proof. intros H. now apply RevisionFacts.mapHeadline_not_nullish in H. Qed.

Lemma searched_callback_source item l :
  FirstNewsService.mapSearched item = Some l ->
  is_nullish (get_prop_opt item "source") = false.
Proof. intros H. now apply RevisionFacts.mapSearched_not_nullish in H. Qed.

Lemma searched_callback_item item l :
  FirstNewsService.mapSearched item = Some l -> is_nullish item = false.
Proof. intros H. now apply RevisionFacts.mapSearched_not_nullish in H. Qed.

(** The two versions of each wrapper build the same request. *)
Lemma getTopHeadlines_versions key args :
  exists req,
    FirstNewsService.getTopHeadlines key args
      = first_fetch FirstNewsService.mapHeadline "Error fetching top headlines:" req /\
    NewsService.getTopHeadlines key args = fetch "error fetching top headlines:" req.
Proof. eexists. split; reflexivity. Qed.

Lemma searchNews_versions key args :
  truthy (NewsService.sn_query args) = true ->
  exists req,
    FirstNewsService.searchNews key args
      = first_fetch FirstNewsService.mapSearched "Error searching news:" req /\
    NewsService.searchNews key args = fetch "error searching news:" req.
Proof.
  intros Hq. unfold FirstNewsService.searchNews, NewsService.searchNews. rewrite Hq.
  eexists. split; reflexivity.
Qed.

Lemma getCompanyNews_versions key args :
  truthy (NewsService.cn_companyName args) = true ->
  exists req,
    FirstNewsService.getCompanyNews key args
      = first_fetch FirstNewsService.mapHeadline "Error fetching company news:" req /\
    NewsService.getCompanyNews key args = fetch "error fetching company news:" req.
Proof.
  intros Hq. unfold FirstNewsService.getCompanyNews, NewsService.getCompanyNews. rewrite Hq.
  eexists. split; reflexivity.
Qed.

Lemma guard_carries_over net :
  answers_carry_over net
    (try_catch (mret FirstNewsService.empty_result)
       (fun error => console_error "Error searching news:" error;;
                     mret FirstNewsService.empty_result))
    (try_catch (mret NewsService.empty_result)
       (fun error => console_error "error searching news:" error;;
                     mret NewsService.empty_result)).
Proof. eexists _, _, _, _. repeat split. Qed.

End RevisionFacts2.

(** X18. The normalization extends the callback of the first version: on
    every record that the first [searchNews] callback maps, the
    normalization succeeds with the same description and author, with the
    title, url, date and source of the first version unless they are missing
    (then the empty string, resp. "unknown"), and with the same content
    unless that is empty (then the description).  On a record without a
    [source] object the first callbacks raise, while the normalization gives
    the source "unknown". *)
Theorem X18_normalization_extends_first_callback :
  (forall item l,
     FirstNewsService.mapSearched item = Some l ->
     exists a,
       NewsService.normalizeArticle item = Some a /\
       NewsService.description a = FirstNewsService.description l /\
       NewsService.author a = FirstNewsService.author l /\
       NewsService.title a = JS.or_else (FirstNewsService.title l) (JS.VStr "") /\
       NewsService.url a = JS.or_else (FirstNewsService.url l) (JS.VStr "") /\
       NewsService.publishedAt a = JS.or_else (FirstNewsService.publishedAt l) (JS.VStr "") /\
       NewsService.source a = JS.or_else (FirstNewsService.source l) (JS.VStr "unknown") /\
       (forall c, FirstNewsService.content l = Some c ->
                  NewsService.content a = if JS.truthy c then c else NewsService.description a)) /\
  (forall item,
     JS.is_nullish item = false ->
     JS.is_nullish (JS.get_prop_opt item "source") = true ->
     FirstNewsService.mapSearched item = None /\
     FirstNewsService.mapHeadline item = None /\
     exists a, NewsService.normalizeArticle item = Some a /\
               NewsService.source a = JS.VStr "unknown").
Proof.
  split.
  - intros item l Hl.
    destruct item as [| | b | n | s | items | props]; try discriminate Hl.
    rewrite NormalizeFacts.normalizeArticle_object. eexists. split; [reflexivity|].
    cbn in Hl.
    destruct (JS.get_prop (JS.assoc "source" props) "name") as [name|] eqn:En;
      [|discriminate Hl].
    cbn in Hl. injection Hl as <-.
    cbn [NewsService.description NewsService.author NewsService.title NewsService.url
         NewsService.publishedAt NewsService.source NewsService.content
         FirstNewsService.description FirstNewsService.author FirstNewsService.title
         FirstNewsService.url FirstNewsService.publishedAt FirstNewsService.source
         FirstNewsService.content].
    repeat split.
    + destruct (JS.assoc "source" props); try discriminate En; cbn in En;
        injection En as <-; reflexivity.
    + intros c [= <-]. unfold JS.or_else.
      destruct (JS.truthy (JS.assoc "content" props)) eqn:Ec; rewrite ?Ec; reflexivity.
  - intros item Hitem Hsrc.
    destruct item as [| | b | n | s | items | props]; try discriminate Hitem;
      try (repeat split; eexists; split; reflexivity).
    cbn [JS.get_prop_opt] in Hsrc.
    split; [|split].
    + cbn. destruct (JS.assoc "source" props); try discriminate Hsrc; reflexivity.
    + cbn. destruct (JS.assoc "source" props); try discriminate Hsrc; reflexivity.
    + rewrite NormalizeFacts.normalizeArticle_object. eexists. split; [reflexivity|].
      cbn [NewsService.source].
      destruct (JS.assoc "source" props); try discriminate Hsrc; reflexivity.
Qed.

Lemma X18_witness :
  exists a,
    NewsService.normalizeArticle
      (JS.VObj [("title", JS.VStr "Rates"); ("source", JS.VNull)]) = Some a /\
    NewsService.source a = JS.VStr "unknown" /\
    FirstNewsService.mapSearched
      (JS.VObj [("title", JS.VStr "Rates"); ("source", JS.VNull)]) = None.
Proof.
  destruct (proj2 X18_normalization_extends_first_callback
              (JS.VObj [("title", JS.VStr "Rates"); ("source", JS.VNull)]) eq_refl eq_refl)
    as [Hfirst [_ [a [Ha Hsrc]]]].
  exists a. split; [exact Ha|]. split; [exact Hsrc | exact Hfirst].
Defined.

(** X19. From the first version of the wrappers to the present one nothing
    is lost: on the same network both versions of [getTopHeadlines],
    [searchNews] and [getCompanyNews] answer after the same requests, and
    whenever the first version read its answer the present one reads it too,
    with the same total and as many articles. *)
Theorem X19_first_answers_carry_over :
  forall (apiKey : string) (net : Eff.network),
    (forall args,
       Revisions.answers_carry_over net
         (FirstNewsService.getTopHeadlines apiKey args)
         (NewsService.getTopHeadlines apiKey args)) /\
    (forall args,
       Revisions.answers_carry_over net
         (FirstNewsService.searchNews apiKey args)
         (NewsService.searchNews apiKey args)) /\
    (forall args,
       Revisions.answers_carry_over net
         (FirstNewsService.getCompanyNews apiKey args)
         (NewsService.getCompanyNews apiKey args)).
Proof.
  intros apiKey net. split; [|split]; intros args.
  - destruct (RevisionFacts2.getTopHeadlines_versions apiKey args) as [req [-> ->]].
    apply RevisionFacts2.fetch_carries_over, RevisionFacts2.headline_callback_item.
  - destruct (JS.truthy (NewsService.sn_query args)) eqn:Hq.
    + destruct (RevisionFacts2.searchNews_versions apiKey args Hq) as [req [-> ->]].
      apply RevisionFacts2.fetch_carries_over, RevisionFacts2.searched_callback_item.
    + unfold FirstNewsService.searchNews, NewsService.searchNews. rewrite Hq.
      eexists _, _, _, _. repeat split.
  - destruct (JS.truthy (NewsService.cn_companyName args)) eqn:Hq.
    + destruct (RevisionFacts2.getCompanyNews_versions apiKey args Hq) as [req [-> ->]].
      apply RevisionFacts2.fetch_carries_over, RevisionFacts2.headline_callback_item.
    + unfold FirstNewsService.getCompanyNews, NewsService.getCompanyNews. rewrite Hq.
      eexists _, _, _, _. repeat split.
Qed.

Lemma X19_witness :
  exists rf rp tr,
    Eff.run (FirstNewsService.searchNews "key"
               {| NewsService.sn_query := JS.VStr "chips"; NewsService.sn_sortBy := JS.VUndef;
                  NewsService.sn_language := JS.VUndef; NewsService.sn_pageSize := None |})
            (fun _ _ => Eff.HttpResponse 200
               (JS.VObj [("totalResults", JS.VNum (JS.num 1));
                         ("articles",
                          JS.VArr [JS.VObj [("title", JS.VStr "Chips");
                                            ("source", JS.VObj [("name", JS.VStr "Wired")])]])]))
    = (inr rf, tr) /\
    Eff.run (NewsService.searchNews "key"
               {| NewsService.sn_query := JS.VStr "chips"; NewsService.sn_sortBy := JS.VUndef;
                  NewsService.sn_language := JS.VUndef; NewsService.sn_pageSize := None |})
            (fun _ _ => Eff.HttpResponse 200
               (JS.VObj [("totalResults", JS.VNum (JS.num 1));
                         ("articles",
                          JS.VArr [JS.VObj [("title", JS.VStr "Chips");
                                            ("source", JS.VObj [("name", JS.VStr "Wired")])]])]))
    = (inr rp, tr) /\
    NewsService.totalResults rp = FirstNewsService.totalResults rf /\
    List.length (NewsService.articles rp) = List.length (FirstNewsService.articles rf).
Proof.
  destruct (proj1 (proj2 (X19_first_answers_carry_over "key"
              (fun _ _ => Eff.HttpResponse 200
                 (JS.VObj [("totalResults", JS.VNum (JS.num 1));
                           ("articles",
                            JS.VArr [JS.VObj [("title", JS.VStr "Chips");
                                              ("source", JS.VObj [("name", JS.VStr "Wired")])]])]))))
              {| NewsService.sn_query := JS.VStr "chips"; NewsService.sn_sortBy := JS.VUndef;
                 NewsService.sn_language := JS.VUndef; NewsService.sn_pageSize := None |})
    as [rf [trf [rp [trp [Hf [Hp [_ Hread]]]]]]].
  exists rf, rp, trf. split; [exact Hf|].
  assert (Htr : trp = trf).
  { vm_compute in Hf, Hp. congruence. }
  rewrite <- Htr. split; [exact Hp|].
  destruct Hread as [_ Hsame]; [|exact Hsame].
  vm_compute in Hf. injection Hf as _ <-. reflexivity.
Defined.

(** X20. What the first version lost: when the payload holds an article
    without a [source] object, among articles the present version maps in
    full, each of the three first wrappers answers with the empty result and
    logs an error, where the present wrapper answers with every article and
    logs nothing. *)
Theorem X20_first_version_lost_answers_without_source :
  forall (apiKey : string) (net : Eff.network),
    (forall args,
       Revisions.lost_without_source net
         (FirstNewsService.getTopHeadlines apiKey args)
         (NewsService.getTopHeadlines apiKey args)) /\
    (forall args,
       Revisions.lost_without_source net
         (FirstNewsService.searchNews apiKey args)
         (NewsService.searchNews apiKey args)) /\
    (forall args,
       Revisions.lost_without_source net
         (FirstNewsService.getCompanyNews apiKey args)
         (NewsService.getCompanyNews apiKey args)).
Proof.
  intros apiKey net. split; [|split]; intros args.
  - destruct (RevisionFacts2.getTopHeadlines_versions apiKey args) as [req [-> ->]].
    apply RevisionFacts2.fetch_lost_without_source, RevisionFacts2.headline_callback_source.
  - destruct (JS.truthy (NewsService.sn_query args)) eqn:Hq.
    + destruct (RevisionFacts2.searchNews_versions apiKey args Hq) as [req [-> ->]].
      apply RevisionFacts2.fetch_lost_without_source, RevisionFacts2.searched_callback_source.
    + unfold FirstNewsService.searchNews. rewrite Hq.
      intros req data items Hhead. discriminate Hhead.
  - destruct (JS.truthy (NewsService.cn_companyName args)) eqn:Hq.
    + destruct (RevisionFacts2.getCompanyNews_versions apiKey args Hq) as [req [-> ->]].
      apply RevisionFacts2.fetch_lost_without_source, RevisionFacts2.headline_callback_source.
    + unfold FirstNewsService.getCompanyNews. rewrite Hq.
      intros req data items Hhead. discriminate Hhead.
Qed.

Lemma X20_witness :
  let payload :=
    JS.VObj [("totalResults", JS.VNum (JS.num 2));
             ("articles",
              JS.VArr [JS.VObj [("title", JS.VStr "Chips");
                                ("source", JS.VObj [("name", JS.VStr "Wired")])];
                       JS.VObj [("title", JS.VStr "Rates"); ("source", JS.VNull)]])] in
  let args :=
    {| NewsService.th_country := JS.VUndef; NewsService.th_category := JS.VUndef;
       NewsService.th_pageSize := None |} in
  (Eff.run (FirstNewsService.getTopHeadlines "key" args)
           (fun _ _ => Eff.HttpResponse 200 payload)).1 = inr FirstNewsService.empty_result /\
  exists rp,
    (Eff.run (NewsService.getTopHeadlines "key" args)
             (fun _ _ => Eff.HttpResponse 200 payload)).1 = inr rp /\
    List.length (NewsService.articles rp) = 2%nat.
Proof.
  cbv zeta.
  edestruct (proj1 (X20_first_version_lost_answers_without_source "key"
               (fun _ _ => Eff.HttpResponse 200
                  (JS.VObj [("totalResults", JS.VNum (JS.num 2));
                            ("articles",
                             JS.VArr [JS.VObj [("title", JS.VStr "Chips");
                                               ("source", JS.VObj [("name", JS.VStr "Wired")])];
                                      JS.VObj [("title", JS.VStr "Rates");
                                               ("source", JS.VNull)]])])))
               {| NewsService.th_country := JS.VUndef; NewsService.th_category := JS.VUndef;
                  NewsService.th_pageSize := None |})
    as [Hfirst [_ [rp [Hp [Hlen _]]]]].
  - vm_compute. reflexivity.
  - reflexivity.
  - reflexivity.
  - repeat constructor.
  - right. left. reflexivity.
  - split; [exact Hfirst|]. exists rp. split; [exact Hp | exact Hlen].
Defined.
